(** * Agent template prototype: configuration, identity, registry, sessions

    A shallow embedding of [agentTemplate.ts] (normalisation of an agent
    configuration, the two conversation helpers) and of the Express server
    (the process-wide registry [agentInstances], the create and interact
    handlers, the start-up credential checks), with the properties of the
    specification stated over it. *)

From Stdlib Require Import ZArith NArith Ascii String DecimalString.
From Stdlib Require Import PrimFloat FloatOps SpecFloat.
From Stdlib Require DecimalZ DecimalPos.
From stdpp Require Import base option strings gmap.

Local Open Scope Z_scope.

(** ** JavaScript strings

    A string is a sequence of code units.  The embedding works with the
    code units below 256 (one [ascii] each, read as Latin-1), on which
    [trim], [toLowerCase] and the class [\s] are given exactly as
    ECMAScript defines them. *)

Module JS.

(** [WhiteSpace] and [LineTerminator] code points below 256: TAB, LF, VT,
    FF, CR, SP and NBSP.  This is the set removed by [trim] and matched by
    [\s]. *)
Definition isWhiteSpace (c : ascii) : bool :=
  match N_of_ascii c with
  | 9 | 10 | 11 | 12 | 13 | 32 | 160 => true
  | _ => false
  end%N.

Fixpoint trimStart (s : string) : string :=
  match s with
  | EmptyString => EmptyString
  | String c r => if isWhiteSpace c then trimStart r else s
  end.

Fixpoint trimEnd (s : string) : string :=
  match s with
  | EmptyString => EmptyString
  | String c r =>
      match trimEnd r with
      | EmptyString => if isWhiteSpace c then EmptyString else String c EmptyString
      | r' => String c r'
      end
  end.

(** [String.prototype.trim] *)
Definition trim (s : string) : string := trimEnd (trimStart s).

(** Lower-case mapping of one code unit below 256: A-Z, and the Latin-1
    capitals U+00C0..U+00DE except the multiplication sign U+00D7, move up
    by 32; every other code unit is its own lower case. *)
Definition lowerUnit (c : ascii) : ascii :=
  let n := N_of_ascii c in
  if ((65 <=? n) && (n <=? 90)
      || (192 <=? n) && (n <=? 222) && negb (n =? 215))%N
  then ascii_of_N (n + 32) else c.

(** [String.prototype.toLowerCase] *)
Fixpoint toLowerCase (s : string) : string :=
  match s with
  | EmptyString => EmptyString
  | String c r => String (lowerUnit c) (toLowerCase r)
  end.

(** [s.replace(/\s+/g, '_')]: the scan goes left to right and copies every
    unit that is not white space; at a white-space unit a match of the
    greedy [\s+] starts, one underscore is emitted for it, and [inMatch]
    consumes the rest of the run before the scan resumes. *)
Fixpoint replaceWhitespaceRuns (s : string) : string :=
  match s with
  | EmptyString => EmptyString
  | String c r =>
      if isWhiteSpace c
      then String "_" (inMatch r)
      else String c (replaceWhitespaceRuns r)
  end
with inMatch (s : string) : string :=
  match s with
  | EmptyString => EmptyString
  | String c r =>
      if isWhiteSpace c
      then inMatch r
      else String c (replaceWhitespaceRuns r)
  end.

(** Truthiness of a string-or-undefined value: [undefined] and the empty
    string are falsy. *)
Definition truthy (v : option string) : bool :=
  match v with
  | Some (String _ _) => true
  | _ => false
  end.

(** [v || d] for a string-or-undefined [v] and a string [d]. *)
Definition orElse (v : option string) (d : string) : string :=
  match v with
  | Some (String c r) => String c r
  | _ => d
  end.

(** The line feed, written [\n] in the source. *)
Definition LF : string := String (ascii_of_N 10) EmptyString.

(** Truthiness of a number: [0], [-0] and [NaN] are falsy. *)
Definition truthyNumber (x : float) : bool :=
  negb ((x =? 0)%float || negb (x =? x)%float).

(** [v || d] for a number-or-undefined [v] and a number [d]. *)
Definition numberOrElse (v : option float) (d : float) : float :=
  match v with
  | Some x => if truthyNumber x then x else d
  | None => d
  end.

(** A number that is an integer greater than zero: finite, positive, with
    no fractional bits. *)
Definition isPositiveInteger (x : float) : bool :=
  match Prim2SF x with
  | S754_finite false m e => (0 <=? e) || (Z.pos m mod 2 ^ (- e) =? 0)
  | _ => false
  end.

(** Decimal rendering of an integral number, as template literals and
    string concatenation produce it for the values of [Date.now()]. *)
Definition numberToString (z : Z) : string :=
  NilZero.string_of_int (Z.to_int z).

End JS.

(** ** agentTemplate.ts: configuration and normalisation *)

(** [interface AgentConfig]: every field is optional. *)
Record AgentConfig := {
  name : option string;
  instructions : option string;
  personality : option string;
  model : option string;
  maxMemoryMessages : option float
}.

(** The empty object [{}], default value of [createAgentTemplate]'s
    parameter. *)
Definition emptyConfig : AgentConfig :=
  {| name := None; instructions := None; personality := None;
     model := None; maxMemoryMessages := None |}.

(** What [createAgentTemplate] hands to the framework's [Agent]
    constructor: [name], [instructions] (the composed system prompt) and
    the model selected through [groq(modelName)].  The constructor and
    [groq] belong to the framework; they are taken to return normally, and
    an agent to be the record of what it was built from. *)
Record Agent := {
  agent_name : string;
  agent_instructions : string;
  agent_model : string
}.

(** The template literal of [createAgentTemplate], before [.trim()]: it
    opens with a line feed and closes with a line feed and two spaces. *)
Definition promptTemplate (instr nm pers : string) : string :=
  JS.LF +:+ instr +:+ JS.LF +:+ "Your name is " +:+ nm +:+ "." +:+ JS.LF
  +:+ "Please respond in a " +:+ pers +:+ " tone." +:+ JS.LF +:+ "  ".

Definition createAgentTemplate (config : AgentConfig) : Agent :=
  let nm := JS.orElse (name config) "Base Agent" in
  let instr := JS.orElse (instructions config) "You are a helpful assistant." in
  let pers := JS.orElse (personality config) "neutral" in
  let modelName := JS.orElse (model config) "qwen-2.5-32b" in
  let fullInstructions := JS.trim (promptTemplate instr nm pers) in
  {| agent_name := nm;
     agent_instructions := fullInstructions;
     agent_model := modelName |}.

(** ** Values thrown, streams, the console *)

(** A thrown value, with the text of its [message]: a [TypeError] raised
    by the language itself, or another [Error] (those of the start-up
    checks, of the agent framework, of the inference provider). *)
Inductive Exn :=
| TypeError (msg : string)
| PlainError (msg : string).

Definition exnMessage (e : Exn) : string :=
  match e with TypeError m | PlainError m => m end.

(** How the iteration over [result.textStream] finishes. *)
Inductive StreamEnd :=
| Completed
| Aborted (cause : Exn).

(** What [await agent.stream(message, options)] and the iteration over its
    [textStream] do: the call throws or its promise rejects, or a finite
    sequence of fragments arrives and the stream then completes or
    throws. *)
Inductive StreamOutcome :=
| Rejected (cause : Exn)
| Streaming (chunks : list string) (fin : StreamEnd).

(** The values a call of [agent.stream] receives: the agent (its name,
    system prompt and model), the message, and the two options. *)
Record Invocation := {
  inv_agent : Agent;
  inv_message : string;
  inv_threadId : string;
  inv_resourceId : string
}.

Inductive Shown :=
| ShownText (s : string)
| ShownBool (b : bool)
| ShownStreamResult
| ShownExn (e : Exn).

Inductive ConsoleLine :=
| ConsoleLog (text : string) (arg : option Shown)
| ConsoleError (text : string) (arg : option Shown).

(** ** The registry object [agentInstances]

    [agentInstances] is created by the literal [{}]: an ordinary object
    whose prototype is [Object.prototype].  It is read with
    [agentInstances[agentId]] and written with
    [agentInstances[agentId] = agent], so both go through the prototype
    chain.  [own] holds the object's own properties; [proto] is [None]
    while the prototype is [Object.prototype] and [Some a] once an
    assignment to the key [__proto__] has made the agent [a] the
    prototype. *)
Record RegistryObject := {
  own : gmap string Agent;
  proto : option Agent
}.

Definition emptyRegistry : RegistryObject := {| own := ∅; proto := None |}.

(** The data properties of [Object.prototype] (the accessor [__proto__] is
    treated apart). *)
Definition objectPrototypeKeys : list string :=
  [ "constructor"; "__defineGetter__"; "__defineSetter__"; "hasOwnProperty";
    "__lookupGetter__"; "__lookupSetter__"; "isPrototypeOf";
    "propertyIsEnumerable"; "toString"; "valueOf"; "toLocaleString" ].

Definition isObjectPrototypeKey (k : string) : bool :=
  bool_decide (k ∈ objectPrototypeKeys).

(** What [agentInstances[agentId]] can evaluate to. *)
Inductive Value :=
| VUndefined
| VAgent (a : Agent)
| VBuiltin (k : string)          (* the function [Object.prototype[k]] *)
| VObjectPrototype               (* [Object.prototype] itself *)
| VMember (a : Agent) (k : string).  (* [a[k]] for the agent [a] *)

(** [o[k]]: an own property wins; otherwise the prototype chain answers. *)
Definition getProperty (o : RegistryObject) (k : string) : Value :=
  match own o !! k with
  | Some a => VAgent a
  | None =>
      match proto o with
      | None =>
          if bool_decide (k = "__proto__") then VObjectPrototype
          else if isObjectPrototypeKey k then VBuiltin k
          else VUndefined
      | Some a =>
          if bool_decide (k = "__proto__") then VAgent a
          else VMember a k
      end
  end.

(** A member of a framework [Agent] instance as the code can observe it:
    its truthiness, the text [`${v.name}`] (or the value thrown while
    producing it) and what calling [v.stream(...)] does.  The class is not
    part of this repository. *)
Record Member := {
  member_truthy : bool;
  member_name : Exn + string;
  member_stream : StreamOutcome
}.

(** ** The environment of a run

    Everything the code consults outside itself: the successive readings
    of [Date.now()], the behaviour of the successive calls of
    [agent.stream], the members of framework [Agent] instances, the
    effect of an assignment that is decided by a property inherited from
    an [Agent] instance, and what the framework's constructor
    [new Mastra({ agents })] throws when it is given the registry, if it
    throws. *)
Record Env := {
  clock : nat -> Z;
  stream : nat -> Invocation -> StreamOutcome;
  member : Agent -> string -> Member;
  inheritedSet : Agent -> string -> Agent -> RegistryObject -> Exn + RegistryObject;
  mastra : RegistryObject -> option Exn
}.

Record State := {
  ticks : nat;
  calls : list Invocation;
  console : list ConsoleLine;
  agentInstances : RegistryObject
}.

(** ** Computations: state and exceptions *)

Inductive Res (A : Type) :=
| Ok (a : A)
| Throw (e : Exn).
Arguments Ok {A} a.
Arguments Throw {A} e.

Definition M (A : Type) : Type := Env -> State -> Res A * State.

Definition ret {A} (a : A) : M A := fun _ st => (Ok a, st).

Definition throw {A} (e : Exn) : M A := fun _ st => (Throw e, st).

Definition bind {A B} (m : M A) (k : A -> M B) : M B :=
  fun env st =>
    match m env st with
    | (Ok a, st') => k a env st'
    | (Throw e, st') => (Throw e, st')
    end.

(** [try { m } catch (error) { handler(error) }] *)
Definition tryCatch {A} (m : M A) (handler : Exn -> M A) : M A :=
  fun env st =>
    match m env st with
    | (Ok a, st') => (Ok a, st')
    | (Throw e, st') => handler e env st'
    end.

Notation "x <- m ;; k" := (bind m (fun x => k))
  (at level 100, m at next level, right associativity).
Notation "m ;; k" := (bind m (fun _ => k))
  (at level 100, right associativity).

(** [Date.now()] *)
Definition dateNow : M Z :=
  fun env st =>
    (Ok (clock env (ticks st)),
     {| ticks := S (ticks st); calls := calls st; console := console st;
        agentInstances := agentInstances st |}).

Definition consoleLog (text : string) (arg : option Shown) : M unit :=
  fun _ st =>
    (Ok tt,
     {| ticks := ticks st; calls := calls st;
        console := console st ++ [ConsoleLog text arg];
        agentInstances := agentInstances st |}).

Definition consoleError (text : string) (arg : option Shown) : M unit :=
  fun _ st =>
    (Ok tt,
     {| ticks := ticks st; calls := calls st;
        console := console st ++ [ConsoleError text arg];
        agentInstances := agentInstances st |}).

Definition recordCall (inv : Invocation) : M unit :=
  fun _ st =>
    (Ok tt,
     {| ticks := ticks st; calls := calls st ++ [inv]; console := console st;
        agentInstances := agentInstances st |}).

(** ** agentTemplate.ts: the conversation helpers *)

Definition apology : string :=
  "Sorry, I encountered an error while processing your request.".

(** [`${v}`] for a string-or-undefined [v]. *)
Definition showOptional (v : option string) : string :=
  match v with Some s => s | None => "undefined" end.

(** [v || `${prefix}${Date.now()}`]: the clock is read only when [v] is
    falsy. *)
Definition idOr (v : option string) (prefix : string) : M string :=
  match v with
  | Some (String c r) => ret (String c r)
  | _ => t <- dateNow ;; ret (prefix +:+ JS.numberToString t)
  end.

(** [`${agent.name}`].  The helpers declare their first parameter as an
    [Agent]; at run time they receive whatever the caller read from the
    registry. *)
Definition shownName (agent : Value) : M string :=
  match agent with
  | VUndefined =>
      throw (TypeError "Cannot read properties of undefined (reading 'name')")
  | VAgent a => ret (agent_name a)
  | VBuiltin k => ret (if bool_decide (k = "constructor") then "Object" else k)
  | VObjectPrototype => ret "undefined"
  | VMember a k =>
      fun env st =>
        match member_name (member env a k) with
        | inl e => (Throw e, st)
        | inr s => (Ok s, st)
        end
  end.

Definition outcomeToStream (o : StreamOutcome) : M (list string * StreamEnd) :=
  match o with
  | Rejected e => throw e
  | Streaming chunks fin => ret (chunks, fin)
  end.

(** [await agent.stream(message, { threadId, resourceId })], the
    arguments already evaluated.  Only an [Agent] has a [stream] method to
    call; the call is recorded and the environment answers it. *)
Definition callStream (agent : Value) (message threadId resourceId : string)
  : M (list string * StreamEnd) :=
  match agent with
  | VUndefined =>
      throw (TypeError "Cannot read properties of undefined (reading 'stream')")
  | VAgent a =>
      let inv := {| inv_agent := a; inv_message := message;
                    inv_threadId := threadId; inv_resourceId := resourceId |} in
      fun env st =>
        (recordCall inv ;; outcomeToStream (stream env (length (calls st)) inv))
          env st
  | VBuiltin _ | VObjectPrototype =>
      throw (TypeError "agent.stream is not a function")
  | VMember a k =>
      fun env st => outcomeToStream (member_stream (member env a k)) env st
  end.

(** [for await (const chunk of result.textStream) { ... }]: each fragment
    is logged, passed to [onChunk] when there is one, and appended; the
    stream's own failure surfaces when the fragments are exhausted. *)
Fixpoint consumeStream (tag : string) (onChunk : option (string -> M unit))
    (chunks : list string) (fin : StreamEnd) (fullResponse : string) : M string :=
  match chunks with
  | [] =>
      match fin with
      | Completed => ret fullResponse
      | Aborted e => throw e
      end
  | chunk :: rest =>
      consoleLog (tag +:+ " - Received chunk:") (Some (ShownText chunk)) ;;
      match onChunk with Some f => f chunk | None => ret tt end ;;
      consumeStream tag onChunk rest fin (fullResponse +:+ chunk)
  end.

Definition simulateConversation (agent : Value) (message : string)
    (threadId resourceId : option string) : M string :=
  shown <- shownName agent ;;
  consoleLog ("Simulating conversation for agent: " +:+ shown +:+ ", thread: "
              +:+ showOptional threadId) None ;;
  tryCatch
    (tid <- idOr threadId "thread_" ;;
     rid <- idOr resourceId "user_" ;;
     result <- callStream agent message tid rid ;;
     consoleLog "SimulateConversation - Received stream result object:"
                (Some ShownStreamResult) ;;
     consoleLog "SimulateConversation - Starting stream processing..." None ;;
     fullResponse <- consumeStream "SimulateConversation" None
                       (fst result) (snd result) "" ;;
     consoleLog "SimulateConversation - Finished stream processing. Full Response:"
                (Some (ShownText fullResponse)) ;;
     ret fullResponse)
    (fun error =>
       consoleError "Error in simulateConversation:" (Some (ShownExn error)) ;;
       ret apology).

Definition streamConversation (agent : Value) (message threadId resourceId : string)
    (onChunk : option (string -> M unit)) : M string :=
  shown <- shownName agent ;;
  consoleLog ("Streaming conversation for agent: " +:+ shown +:+ ", thread: "
              +:+ threadId) None ;;
  tryCatch
    (result <- callStream agent message threadId resourceId ;;
     consoleLog "StreamConversation - Received stream result object:"
                (Some ShownStreamResult) ;;
     consoleLog "StreamConversation - Starting stream processing..." None ;;
     fullResponse <- consumeStream "StreamConversation" onChunk
                       (fst result) (snd result) "" ;;
     consoleLog "StreamConversation - Finished stream processing. Full Response:"
                (Some (ShownText fullResponse)) ;;
     ret fullResponse)
    (fun error =>
       consoleError "Error in streamConversation:" (Some (ShownExn error)) ;;
       ret apology).

(** ** The server: responses, the two handlers, the health check *)

(** The [agent] object of a successful create response. *)
Record AgentView := {
  view_id : string;
  view_name : string;
  view_instructions : string;
  view_personality : string;
  view_model : string;
  view_maxMemoryMessages : float
}.

Inductive Body :=
| ErrorBody (msg : string) (error : option string)
| AgentCreated (agent : AgentView)
| Reply (response threadId resourceId : string)
| Health (agents : nat).

Record Response := {
  statusCode : nat;
  body : Body
}.

(** The [status] field of the JSON body. *)
Definition statusField (b : Body) : string :=
  match b with
  | ErrorBody _ _ => "error"
  | AgentCreated _ | Reply _ _ _ => "success"
  | Health _ => "ok"
  end.

(** [agentInstances[k] = v]: an own property is overwritten; the key
    [__proto__] reaches the setter inherited from [Object.prototype], which
    replaces the prototype and creates no property; any other key creates
    an own property while the prototype is [Object.prototype] (all its
    data properties are writable), and is decided by the inherited
    property once an [Agent] instance is the prototype. *)
Definition setProperty (env : Env) (o : RegistryObject) (k : string) (v : Agent)
  : Exn + RegistryObject :=
  match own o !! k with
  | Some _ => inr {| own := <[k := v]> (own o); proto := proto o |}
  | None =>
      if bool_decide (k = "__proto__")
      then inr {| own := own o; proto := Some v |}
      else
        match proto o with
        | None => inr {| own := <[k := v]> (own o); proto := proto o |}
        | Some a => inheritedSet env a k v o
        end
  end.

Definition readAgent (agentId : string) : M Value :=
  fun _ st => (Ok (getProperty (agentInstances st) agentId), st).

Definition storeAgent (agentId : string) (agent : Agent) : M unit :=
  fun env st =>
    match setProperty env (agentInstances st) agentId agent with
    | inl e => (Throw e, st)
    | inr o =>
        (Ok tt,
         {| ticks := ticks st; calls := calls st; console := console st;
            agentInstances := o |})
    end.

(** [!v] is false: the value is truthy.  Functions, objects and agents
    are. *)
Definition isTruthy (v : Value) : M bool :=
  match v with
  | VUndefined => ret false
  | VAgent _ | VBuiltin _ | VObjectPrototype => ret true
  | VMember a k => fun env st => (Ok (member_truthy (member env a k)), st)
  end.

(** [config.name?.toLowerCase().replace(/\s+/g, '_') || `agent_${Date.now()}`] *)
Definition deriveIdentity (nm : option string) : M string :=
  idOr (option_map (fun n => JS.replaceWhitespaceRuns (JS.toLowerCase n)) nm)
       "agent_".

(** The error-handling middleware, reached through [next(error)]. *)
Definition next (err : Exn) : M Response :=
  consoleError "Server error:" (Some (ShownExn err)) ;;
  ret {| statusCode := 500;
         body := ErrorBody "Internal server error" (Some (exnMessage err)) |}.

(** The fields of the create response, each with its default. *)
Definition agentView (agentId : string) (config : AgentConfig) : AgentView :=
  {| view_id := agentId;
     view_name := JS.orElse (name config) "Base Agent";
     view_instructions := JS.orElse (instructions config) "You are a helpful assistant.";
     view_personality := JS.orElse (personality config) "neutral";
     view_model := JS.orElse (model config) "qwen-2.5-32b";
     view_maxMemoryMessages := JS.numberOrElse (maxMemoryMessages config) 10 |}.

(** [mastraInstance = registerAgents(agentInstances)]: the framework's
    constructor is run on the registry as it stands.  The object it builds
    is stored in [mastraInstance] and never read; what it throws is thrown
    here. *)
Definition registerAgentInstances : M unit :=
  fun env st =>
    match mastra env (agentInstances st) with
    | Some e => (Throw e, st)
    | None => (Ok tt, st)
    end.

(** [POST /create-agent].  The agent is stored before the registry is
    handed to the framework, so it stays stored when the constructor
    throws and the request ends in the error middleware. *)
Definition createAgentHandler (reqBody : option AgentConfig) : M Response :=
  tryCatch
    (match reqBody with
     | None =>
         ret {| statusCode := 400;
                body := ErrorBody "Missing agent configuration" None |}
     | Some config =>
         agentId <- deriveIdentity (name config) ;;
         let agent := createAgentTemplate config in
         storeAgent agentId agent ;;
         registerAgentInstances ;;
         ret {| statusCode := 200;
                body := AgentCreated (agentView agentId config) |}
     end)
    next.

Record InteractBody := {
  message : option string;
  threadId : option string;
  resourceId : option string
}.

(** [POST /interact/:agentId] *)
Definition interactAgentHandler (agentId : string) (reqBody : option InteractBody)
  : M Response :=
  tryCatch
    (match reqBody with
     | None =>
         throw (TypeError "Cannot destructure property 'message' of 'req.body' as it is undefined.")
     | Some b =>
         match message b with
         | Some (String c r) =>
             let msg := String c r in
             agent <- readAgent agentId ;;
             found <- isTruthy agent ;;
             if negb found then
               ret {| statusCode := 404;
                      body := ErrorBody ("Agent with ID " +:+ agentId +:+ " not found")
                                        None |}
             else
               tryCatch
                 (tid <- idOr (threadId b) "thread_" ;;
                  rid <- idOr (resourceId b) "user_" ;;
                  response <- simulateConversation agent msg (Some tid) (Some rid) ;;
                  tid' <- idOr (threadId b) "thread_" ;;
                  rid' <- idOr (resourceId b) "user_" ;;
                  ret {| statusCode := 200; body := Reply response tid' rid' |})
                 (fun agentError =>
                    consoleError "Error in agent response:" (Some (ShownExn agentError)) ;;
                    ret {| statusCode := 500;
                           body := ErrorBody "Agent failed to process the message"
                                             (Some (exnMessage agentError)) |})
         | _ =>
             ret {| statusCode := 400; body := ErrorBody "Missing message" None |}
         end
     end)
    next.

(** [GET /health]: [Object.keys(agentInstances).length] counts the own
    properties. *)
Definition healthCheckHandler : M Response :=
  fun _ st =>
    (Ok {| statusCode := 200; body := Health (size (own (agentInstances st))) |}, st).

(** The key under which the command-line demo registers its agent; the
    answer to the name prompt was replaced by ['Demo Agent'] when blank. *)
Definition demoAgentKey (answer : string) : string :=
  JS.replaceWhitespaceRuns (JS.toLowerCase (JS.orElse (Some answer) "Demo Agent")).

(** ** Start-up and the serving process *)

(** The environment variables the two modules read, after [dotenv]. *)
Record ProcessEnv := {
  GOOGLE_API_KEY : option string;
  GROQ_API_KEY : option string;
  PORT : option string
}.

Inductive Process :=
| Halted (reason : Exn)
| Listening (st : State).

(** The state in which the server starts to listen: the console holds the
    line written by [agentTemplate] and those of the [app.listen] callback,
    the registry is empty. *)
Definition initialState (port : string) : State :=
  {| ticks := 0; calls := [];
     console :=
       [ ConsoleLog "GOOGLE_API_KEY loaded:" (Some (ShownBool true));
         ConsoleLog ("API server running on port " +:+ port) None;
         ConsoleLog "API endpoints available at:" None;
         ConsoleLog ("  - http://localhost:" +:+ port +:+ "/create-agent [POST]") None;
         ConsoleLog ("  - http://localhost:" +:+ port +:+ "/interact/:agentId [POST]") None;
         ConsoleLog ("  - http://localhost:" +:+ port +:+ "/health [GET]") None ];
     agentInstances := emptyRegistry |}.

(** Module evaluation of the server: the import of [agentTemplate] runs
    first (its check of [GOOGLE_API_KEY]), then the server's own check of
    [GROQ_API_KEY], then [app.listen]. *)
Definition startServer (penv : ProcessEnv) : Process :=
  if negb (JS.truthy (GOOGLE_API_KEY penv))
  then Halted (PlainError "FATAL: GOOGLE_API_KEY environment variable not found!")
  else if negb (JS.truthy (GROQ_API_KEY penv))
  then Halted (PlainError "FATAL: GROQ_API_KEY environment variable not found!")
  else Listening (initialState (JS.orElse (PORT penv) "3000")).

Inductive Request :=
| PostCreateAgent (reqBody : option AgentConfig)
| PostInteract (agentId : string) (reqBody : option InteractBody)
| GetHealth.

(** Express runs a handler inside its own [try]/[catch], which forwards a
    value thrown synchronously to the error middleware.  The interact
    handler is an [async] function: what it lets escape is a rejected
    promise that nothing observes. *)
Definition route (req : Request) : M Response :=
  match req with
  | PostCreateAgent b => tryCatch (createAgentHandler b) next
  | PostInteract agentId b => interactAgentHandler agentId b
  | GetHealth => tryCatch healthCheckHandler next
  end.

(** One request against the process.  A halted process answers nothing;
    an unhandled rejection ends the process. *)
Definition serve (env : Env) (p : Process) (req : Request) : Process * option Response :=
  match p with
  | Halted reason => (Halted reason, None)
  | Listening st =>
      match route req env st with
      | (Ok resp, st') => (Listening st', Some resp)
      | (Throw e, _) => (Halted e, None)
      end
  end.

Fixpoint serveAll (env : Env) (p : Process) (reqs : list Request)
  : Process * list (option Response) :=
  match reqs with
  | [] => (p, [])
  | req :: rest =>
      let '(p', r) := serve env p req in
      let '(p'', rs) := serveAll env p' rest in
      (p'', r :: rs)
  end.

(** ** The specification's wording, for comparison with the code *)

Module Spec.

(** The composition rule: start with the instructions, append the name
    line, append the tone line, trim. *)
Definition appendLine (s line : string) : string := s +:+ JS.LF +:+ line.

Definition composePrompt (instr nm pers : string) : string :=
  JS.trim
    (appendLine
       (appendLine instr ("Your name is " +:+ nm +:+ "."))
       ("Please respond in a " +:+ pers +:+ " tone.")).

(** The maximal runs of a string: consecutive units of the same class,
    white space or not, grouped together. *)
Fixpoint runs (s : string) : list (bool * string) :=
  match s with
  | EmptyString => []
  | String c r =>
      match runs r with
      | (ws, run) :: rest =>
          if Bool.eqb ws (JS.isWhiteSpace c)
          then (ws, String c run) :: rest
          else (JS.isWhiteSpace c, String c EmptyString) :: (ws, run) :: rest
      | [] => [(JS.isWhiteSpace c, String c EmptyString)]
      end
  end.

Definition joinStrings (l : list string) : string :=
  foldr String.append EmptyString l.

(** "Replace every run of whitespace with a single underscore". *)
Definition underscoreRuns (s : string) : string :=
  joinStrings (map (fun r : bool * string => if fst r then "_" else snd r) (runs s)).

(** "Lower-case it, replace every run of whitespace with a single
    underscore". *)
Definition identityOfName (nm : string) : string :=
  underscoreRuns (JS.toLowerCase nm).

End Spec.

(** ** Environments and requests used in the examples *)

(** How a stream outcome fails, if it does. *)
Definition failure (o : StreamOutcome) : option Exn :=
  match o with
  | Rejected e => Some e
  | Streaming _ (Aborted e) => Some e
  | Streaming _ Completed => None
  end.

Definition absentMember : Member :=
  {| member_truthy := false;
     member_name := inr "undefined";
     member_stream := Rejected (TypeError "agent.stream is not a function") |}.

(** A constructor that copies the agents into an object of its own and
    refuses a key which that object resolves already: a registry holding,
    as an own key, a key that every object inherits.  ['constructor'] is
    the one such key that a derived identity can be. *)
Definition refusedKey (o : RegistryObject) : option Exn :=
  match filter (fun k => is_Some (own o !! k)) objectPrototypeKeys with
  | k :: _ => Some (PlainError ("Agent with name ID:" +:+ k +:+ " already exists"))
  | [] => None
  end.

(** An environment with the given clock readings in which every call of
    [agent.stream] has the given outcome. *)
Definition scriptedEnv (readings : nat -> Z) (outcome : StreamOutcome) : Env :=
  {| clock := readings;
     stream := fun _ _ => outcome;
     member := fun _ _ => absentMember;
     inheritedSet := fun _ _ _ o => inr o;
     mastra := refusedKey |}.

(** A clock that shows [t] for the first two readings and [t + 850]
    afterwards: 850 ms pass while the model answers. *)
Definition clockAround (t : Z) (n : nat) : Z :=
  if (n <? 2)%nat then t else t + 850.

Definition greeting : StreamOutcome := Streaming ["Hi"; " there"] Completed.

Definition providerDown : StreamOutcome :=
  Rejected (PlainError "503 Service Unavailable").

Definition cutOff : StreamOutcome :=
  Streaming ["Hi"] (Aborted (PlainError "socket hang up")).

Definition friendlyConfig : AgentConfig :=
  {| name := Some "FriendlyBot";
     instructions := Some "You are cheerful.";
     personality := Some "friendly";
     model := None;
     maxMemoryMessages := None |}.

Definition withMemory (config : AgentConfig) (n : float) : AgentConfig :=
  {| name := name config; instructions := instructions config;
     personality := personality config; model := model config;
     maxMemoryMessages := Some n |}.

Definition named (nm : string) : AgentConfig :=
  {| name := Some nm; instructions := None; personality := None;
     model := None; maxMemoryMessages := None |}.

Definition instructed (nm instr : string) : AgentConfig :=
  {| name := Some nm; instructions := Some instr; personality := None;
     model := None; maxMemoryMessages := None |}.

Definition hello : InteractBody :=
  {| message := Some "Hello"; threadId := None; resourceId := None |}.

Definition helloIn (tid rid : string) : InteractBody :=
  {| message := Some "Hello"; threadId := Some tid; resourceId := Some rid |}.

Definition credentials : ProcessEnv :=
  {| GOOGLE_API_KEY := Some "g-key"; GROQ_API_KEY := Some "q-key"; PORT := None |}.

Definition noGroqKey : ProcessEnv :=
  {| GOOGLE_API_KEY := Some "g-key"; GROQ_API_KEY := None; PORT := None |}.

(** The state of a server that has just created [friendlyConfig]. *)
Definition friendlyState : State :=
  snd (createAgentHandler (Some friendlyConfig)
         (scriptedEnv (clockAround 1700000000000) greeting)
         (initialState "3000")).

(** ** Auxiliary definitions for the statements and proofs *)

(** The leading white-space run of a list of runs, removed. *)
Definition afterLeadingRun (l : list (bool * string)) : list (bool * string) :=
  match l with
  | (true, _) :: rest => rest
  | _ => l
  end.

Definition render (l : list (bool * string)) : string :=
  Spec.joinStrings (map (fun r : bool * string => if fst r then "_" else snd r) l).

(** A blank string field read as an absent one. *)
Definition blankToAbsent (v : option string) : option string :=
  match v with Some EmptyString => None | _ => v end.

Definition dropBlanks (config : AgentConfig) : AgentConfig :=
  {| name := blankToAbsent (name config);
     instructions := blankToAbsent (instructions config);
     personality := blankToAbsent (personality config);
     model := blankToAbsent (model config);
     maxMemoryMessages := maxMemoryMessages config |}.

(** The console line written for one fragment. *)
Definition chunkLine (tag chunk : string) : ConsoleLine :=
  ConsoleLog (tag +:+ " - Received chunk:") (Some (ShownText chunk)).

(** The state after [k] more readings of the clock. *)
Definition advance (k : nat) (st : State) : State :=
  {| ticks := k + ticks st; calls := calls st; console := console st;
     agentInstances := agentInstances st |}.

(** ** demo.ts: the command-line demo *)

(** What the demo takes from the runtime, the terminal and the framework:
    [process.stdout.write], [parseInt(s, 10)], the text a template literal
    gives for a number, and the constructor [new Mastra({ agents })].  The
    prompts that [ask] prints through [rl.question] go to the terminal as
    well and are not part of the state. *)
Record Builtins := {
  stdoutWrite : string -> M unit;
  parseInt10 : string -> float;
  numberText : float -> string;
  newMastra : gmap string Agent -> M unit
}.

(** [registerAgents]: the framework object it returns is opaque, and the
    demo drops it. *)
Definition registerAgents (b : Builtins) (agents : gmap string Agent) : M unit :=
  newMastra b agents.

(** How a run of the demo stands when nothing more happens: the
    [finally] block has closed the readline interface, or a question is
    still waiting for an answer that the input does not hold. *)
Inductive DemoEnd :=
| DemoClosed
| DemoWaiting.

(** [userMessage.toLowerCase() === 'exit'] *)
Definition isExit (userMessage : string) : bool :=
  String.eqb (JS.toLowerCase userMessage) "exit".

(** The configuration collected from the four answers: a blank answer is
    replaced by its default, the answer to the memory prompt goes through
    [parseInt] unless it is blank; no model is ever asked for. *)
Definition demoConfig (b : Builtins) (nameAns instrAns persAns memAns : string)
  : AgentConfig :=
  {| name := Some (JS.orElse (Some nameAns) "Demo Agent");
     instructions := Some (JS.orElse (Some instrAns) "You are a helpful assistant.");
     personality := Some (JS.orElse (Some persAns) "neutral");
     model := None;
     maxMemoryMessages :=
       Some match memAns with
            | EmptyString => 10%float
            | _ => parseInt10 b memAns
            end |}.

(** The [while] loop of [runDemo], one answer of the input per turn.
    [messageCounter] is the value already incremented for the turn. *)
Fixpoint chatLoop (b : Builtins) (agent : Agent) (displayName tid rid : string)
    (messageCounter : nat) (answers : list string) : M DemoEnd :=
  match answers with
  | [] => ret DemoWaiting
  | userMessage :: rest =>
      if isExit userMessage then
        consoleLog (JS.LF +:+ "Thank you for using the Mastra AI Personalized Agent Demo!")
                   None ;;
        ret DemoClosed
      else
        consoleLog (JS.LF +:+ "Processing...") None ;;
        consoleLog (JS.LF +:+ displayName +:+ ": ") None ;;
        fullResponse <- streamConversation (VAgent agent) userMessage tid rid
                          (Some (fun chunk => stdoutWrite b chunk)) ;;
        consoleLog JS.LF None ;;
        consoleLog (JS.LF +:+ "Message "
                    +:+ JS.numberToString (Z.of_nat messageCounter)
                    +:+ " processed.") None ;;
        consoleLog ("Thread ID: " +:+ tid) None ;;
        consoleLog ("Resource ID: " +:+ rid) None ;;
        chatLoop b agent displayName tid rid (S messageCounter) rest
  end.

(** [runDemo], on the lines the input holds.  The agent is registered with
    the framework under [demoAgentKey], a computed key of an object
    literal and so an own property whatever its text.  A question left
    without an answer leaves the run waiting inside the [try] block:
    neither [catch] nor [finally] runs. *)
Definition runDemo (b : Builtins) (answers : list string) : M DemoEnd :=
  consoleLog (JS.LF +:+ "=== Mastra AI: Dynamic Personalized Agent Template Prototype ==="
              +:+ JS.LF) None ;;
  match answers with
  | nameAns :: instrAns :: persAns :: memAns :: messages =>
      tryCatch
        (let config := demoConfig b nameAns instrAns persAns memAns in
         consoleLog (JS.LF +:+ "Creating your personalized agent...") None ;;
         let agent := createAgentTemplate config in
         registerAgents b {[ demoAgentKey nameAns := agent ]} ;;
         consoleLog (JS.LF +:+ "Agent created successfully!" +:+ JS.LF) None ;;
         consoleLog ("Name: " +:+ showOptional (name config)) None ;;
         consoleLog ("Instructions: " +:+ showOptional (instructions config)) None ;;
         consoleLog ("Personality: " +:+ showOptional (personality config)) None ;;
         consoleLog ("Model: " +:+ JS.orElse (model config) "gemini-1.5-flash-latest")
                    None ;;
         consoleLog ("Max Memory Messages: "
                     +:+ match maxMemoryMessages config with
                         | Some n => numberText b n
                         | None => "undefined"
                         end) None ;;
         consoleLog (JS.LF +:+ "=== Starting Conversation Simulation ===" +:+ JS.LF)
                    None ;;
         t1 <- dateNow ;;
         let tid := "thread_" +:+ JS.numberToString t1 in
         t2 <- dateNow ;;
         let rid := "user_" +:+ JS.numberToString t2 in
         consoleLog ("Thread ID: " +:+ tid) None ;;
         consoleLog ("Resource ID: " +:+ rid) None ;;
         chatLoop b agent (showOptional (name config)) tid rid 1 messages)
        (fun error =>
           consoleError "Error in demo:" (Some (ShownExn error)) ;;
           ret DemoClosed)
  | _ => ret DemoWaiting
  end.

(** What the demo hands to the collaborator for one message. *)
Definition demoInvocation (agent : Agent) (tid rid userMessage : string)
  : Invocation :=
  {| inv_agent := agent; inv_message := userMessage;
     inv_threadId := tid; inv_resourceId := rid |}.

(** The messages typed before the first [exit]. *)
Fixpoint beforeExit (messages : list string) : list string :=
  match messages with
  | [] => []
  | m :: rest => if isExit m then [] else m :: beforeExit rest
  end.

(** The state after one more line on the console. *)
Definition logged (line : ConsoleLine) (st : State) : State :=
  {| ticks := ticks st; calls := calls st; console := console st ++ [line];
     agentInstances := agentInstances st |}.

(** A facility the modelled state does not see: using it changes nothing
    and does not throw. *)
Definition silent {A} (use : A -> M unit) : Prop :=
  forall a env st, use a env st = (Ok tt, st).

(** A callback that never throws. *)
Definition neverThrows (f : string -> M unit) : Prop :=
  forall s env st, fst (f s env st) = Ok tt.

(** A callback that throws [e] when it is given [chunk], whatever the
    state. *)
Definition throwsOn (f : string -> M unit) (chunk : string) (e : Exn) : Prop :=
  forall env st, exists st', f chunk env st = (Throw e, st').

(** A clock that moves by one unit between two readings. *)
Definition tickingClock (t : Z) (n : nat) : Z := t + Z.of_nat n.

(** [chunk => console.log(chunk)], the callback of the usage example. *)
Definition echoChunk (chunk : string) : M unit := consoleLog chunk None.

(** A callback whose rendering fails. *)
Definition brokenCallback (chunk : string) : M unit :=
  throw (PlainError "render failed").

(** A terminal and a framework that stay silent, for an input whose
    memory answer reads as five. *)
Definition quietBuiltins : Builtins :=
  {| stdoutWrite := fun _ => ret tt;
     parseInt10 := fun _ => 5%float;
     numberText := fun _ => "5";
     newMastra := fun _ => ret tt |}.

(** A framework whose constructor refuses the agents it is given. *)
Definition refusingBuiltins : Builtins :=
  {| stdoutWrite := fun _ => ret tt;
     parseInt10 := fun _ => 5%float;
     numberText := fun _ => "5";
     newMastra := fun _ => throw (PlainError "registration refused") |}.

(** Every code unit of the string satisfies the test. *)
Fixpoint allUnits (test : ascii -> bool) (s : string) : bool :=
  match s with
  | EmptyString => true
  | String c r => test c && allUnits test r
  end.

(** The computation leaves the registry as it found it. *)
Definition keepsRegistry {A} (m : M A) : Prop :=
  forall env st, agentInstances (snd (m env st)) = agentInstances st.

(** * Properties *)

(** ** Strings *)

Section StringFacts.

Lemma append_cons c s t : String c s +:+ t = String c (s +:+ t).
Proof. reflexivity. Qed.

Lemma append_nil_l t : "" +:+ t = t.
Proof. reflexivity. Qed.

Lemma append_nil_r s : s +:+ "" = s.
Proof. induction s as [|c s IH]; [done|]. by rewrite append_cons, IH. Qed.

Lemma append_assoc s t u : (s +:+ t) +:+ u = s +:+ (t +:+ u).
Proof. induction s as [|c s IH]; [done|]. by rewrite !append_cons, IH. Qed.

Lemma append_eq_nil s t : s +:+ t = "" -> t = "".
Proof. destruct s; [done|discriminate]. Qed.

(** Leading white space falls; a unit that is not white space stops the
    scan, whatever follows it. *)
Lemma trimStart_app_solid s c t :
  JS.isWhiteSpace c = false ->
  JS.trimStart (s +:+ String c t) = JS.trimStart s +:+ String c t.
Proof.
  intros Hc. induction s as [|d s IH].
  - rewrite append_nil_l. simpl. by rewrite Hc.
  - rewrite append_cons. simpl. destruct (JS.isWhiteSpace d); [exact IH|done].
Qed.

(** What precedes a tail that survives its own trimming is kept whole. *)
Lemma trimEnd_app_solid s t :
  JS.trimEnd t <> "" -> JS.trimEnd (s +:+ t) = s +:+ JS.trimEnd t.
Proof.
  intros Ht. induction s as [|d s IH]; [done|].
  rewrite !append_cons. simpl. rewrite IH.
  destruct (s +:+ JS.trimEnd t) eqn:E; [|done].
  by apply append_eq_nil in E.
Qed.

Lemma trim_frame s c body tail :
  JS.isWhiteSpace c = false ->
  JS.trimEnd tail <> "" ->
  JS.trim (s +:+ String c (body +:+ tail))
  = JS.trimStart s +:+ String c (body +:+ JS.trimEnd tail).
Proof.
  intros Hc Htail. unfold JS.trim.
  rewrite trimStart_app_solid by exact Hc.
  replace (JS.trimStart s +:+ String c (body +:+ tail))
    with ((JS.trimStart s +:+ String c body) +:+ tail)
    by (by rewrite !append_assoc).
  rewrite trimEnd_app_solid by exact Htail.
  by rewrite !append_assoc.
Qed.

End StringFacts.

(** ** The system prompt *)

Lemma promptTemplate_trim instr nm pers :
  JS.trim (promptTemplate instr nm pers)
  = JS.trimStart (instr +:+ JS.LF) +:+ "Your name is " +:+ nm +:+ "." +:+ JS.LF
    +:+ "Please respond in a " +:+ pers +:+ " tone.".
Proof.
  set (body := "our name is " +:+ nm +:+ "." +:+ JS.LF
               +:+ "Please respond in a " +:+ pers).
  assert (promptTemplate instr nm pers
          = JS.LF +:+ (instr +:+ JS.LF)
            +:+ String "Y" (body +:+ " tone." +:+ JS.LF +:+ "  ")) as ->.
  { unfold promptTemplate, body. by rewrite !append_assoc. }
  change (JS.trim (JS.LF +:+ ?x)) with (JS.trim x).
  rewrite trim_frame by (done || (vm_compute; discriminate)).
  unfold body. by rewrite !append_assoc.
Qed.

Lemma composePrompt_trim instr nm pers :
  Spec.composePrompt instr nm pers
  = JS.trimStart (instr +:+ JS.LF) +:+ "Your name is " +:+ nm +:+ "." +:+ JS.LF
    +:+ "Please respond in a " +:+ pers +:+ " tone.".
Proof.
  set (body := "our name is " +:+ nm +:+ "." +:+ JS.LF
               +:+ "Please respond in a " +:+ pers).
  unfold Spec.composePrompt, Spec.appendLine.
  match goal with |- JS.trim ?t = _ =>
    assert (t = (instr +:+ JS.LF) +:+ String "Y" (body +:+ " tone.")) as ->
  end.
  { unfold body. by rewrite !append_assoc. }
  rewrite trim_frame by (done || (vm_compute; discriminate)).
  unfold body. by rewrite !append_assoc.
Qed.

(** C1.  For every configuration, once the three fields are default-filled,
    the agent's system prompt is the three-part composition of the
    specification (the instructions, then the line [Your name is {name}.],
    then the line [Please respond in a {personality} tone.], the whole
    trimmed).  Written out: whatever the trimming leaves of the
    instructions comes first, the name line follows, the tone line ends
    the prompt. *)
Theorem createAgentTemplate_systemPrompt (config : AgentConfig) :
  let instr := JS.orElse (instructions config) "You are a helpful assistant." in
  let nm := JS.orElse (name config) "Base Agent" in
  let pers := JS.orElse (personality config) "neutral" in
  agent_instructions (createAgentTemplate config) = Spec.composePrompt instr nm pers
  /\ agent_instructions (createAgentTemplate config)
     = JS.trimStart (instr +:+ JS.LF) +:+ "Your name is " +:+ nm +:+ "." +:+ JS.LF
       +:+ "Please respond in a " +:+ pers +:+ " tone.".
Proof.
  intros instr nm pers. unfold createAgentTemplate. cbn [agent_instructions].
  fold instr nm pers.
  rewrite composePrompt_trim. split; apply promptTemplate_trim.
Qed.

(** ** The derived identity *)

(** The scan of the regular expression and the grouping into maximal runs
    agree, both at the top of the scan and inside a match. *)
Lemma scan_runs s :
  JS.replaceWhitespaceRuns s = render (Spec.runs s)
  /\ JS.inMatch s = render (afterLeadingRun (Spec.runs s)).
Proof.
  induction s as [|c r [IHscan IHin]]; [done|].
  cbn [JS.replaceWhitespaceRuns JS.inMatch Spec.runs].
  rewrite IHscan, IHin.
  destruct (JS.isWhiteSpace c) eqn:Hc, (Spec.runs r) as [|[[] run] rest]; done.
Qed.

Lemma replaceWhitespaceRuns_spec s :
  JS.replaceWhitespaceRuns s = Spec.underscoreRuns s.
Proof. apply scan_runs. Qed.

Lemma identity_nonempty nm :
  nm <> "" ->
  exists c r, JS.replaceWhitespaceRuns (JS.toLowerCase nm) = String c r.
Proof.
  destruct nm as [|c r]; [done|]. intros _. simpl.
  destruct (JS.isWhiteSpace (JS.lowerUnit c)); eauto.
Qed.

(** C2, amended.  For every present, non-empty name the derived identity
    is the name lower-cased with every run of white space replaced by one
    underscore, in the server and in the command-line demo alike, and the
    clock is not read.  A run at either end of the name is a run like any
    other: ["Friendly Bot"] gives ["friendly_bot"] and
    ["  multi   space  "] gives ["_multi_space_"]. *)
Theorem deriveIdentity_of_name (nm : string) (env : Env) (st : State) :
  nm <> "" ->
  deriveIdentity (Some nm) env st = (Ok (Spec.identityOfName nm), st)
  /\ demoAgentKey nm = Spec.identityOfName nm
  /\ Spec.identityOfName "Friendly Bot" = "friendly_bot"
  /\ Spec.identityOfName "  multi   space  " = "_multi_space_".
Proof.
  intros Hnm. split; [|split; [|split; reflexivity]].
  - destruct (identity_nonempty nm Hnm) as (c & r & E).
    unfold deriveIdentity, Spec.identityOfName. cbn [option_map idOr].
    rewrite <- replaceWhitespaceRuns_spec, E. reflexivity.
  - unfold demoAgentKey, Spec.identityOfName.
    destruct nm; [done|]. apply replaceWhitespaceRuns_spec.
Qed.

Lemma deriveIdentity_of_name_witness :
  "Friendly Bot" <> ""
  /\ deriveIdentity (Some "Friendly Bot")
       (scriptedEnv (clockAround 1700000000000) greeting) (initialState "3000")
     = (Ok "friendly_bot", initialState "3000").
Proof.
  split; [done|].
  exact (proj1 (deriveIdentity_of_name "Friendly Bot"
                  (scriptedEnv (clockAround 1700000000000) greeting)
                  (initialState "3000") ltac:(done))).
Defined.

(** C2 as stated fails on its second example: the identity derived from
    ["  multi   space  "] is ["_multi_space_"], not ["multi_space"]. *)
Lemma deriveIdentity_keeps_outer_runs :
  fst (deriveIdentity (Some "  multi   space  ")
         (scriptedEnv (clockAround 1700000000000) greeting) (initialState "3000"))
  = Ok "_multi_space_"
  /\ fst (deriveIdentity (Some "  multi   space  ")
            (scriptedEnv (clockAround 1700000000000) greeting) (initialState "3000"))
     <> Ok "multi_space".
Proof. split; [reflexivity|]. vm_compute. discriminate. Qed.

(** ** Default filling *)

Lemma orElse_blank v d : JS.orElse (blankToAbsent v) d = JS.orElse v d.
Proof. by destruct v as [[|]|]. Qed.

(** C6, amended.  Normalisation is a total function of the partial
    configuration: every field of the agent and of the view returned to
    the caller comes from the input or from its default (name
    ["Base Agent"], instructions ["You are a helpful assistant."],
    personality ["neutral"], model ["qwen-2.5-32b"], maxMemoryMessages
    [10]); a blank string field counts as an absent one; the fully empty
    configuration yields the defaults.  A supplied maxMemoryMessages is
    kept as it is unless it is falsy ([0], [-0], [NaN]), in which case the
    default [10] stands in; no other check is made on it. *)
Theorem normalization_defaults (config : AgentConfig) (agentId : string) :
  let view := agentView agentId config in
  let agent := createAgentTemplate config in
  view_id view = agentId
  /\ view_name view = JS.orElse (name config) "Base Agent"
  /\ agent_name agent = view_name view
  /\ view_instructions view
     = JS.orElse (instructions config) "You are a helpful assistant."
  /\ view_personality view = JS.orElse (personality config) "neutral"
  /\ agent_instructions agent
     = Spec.composePrompt (view_instructions view) (view_name view)
         (view_personality view)
  /\ view_model view = JS.orElse (model config) "qwen-2.5-32b"
  /\ agent_model agent = view_model view
  /\ view_maxMemoryMessages view
     = match maxMemoryMessages config with
       | Some x => if JS.truthyNumber x then x else 10%float
       | None => 10%float
       end
  /\ agentView agentId (dropBlanks config) = view
  /\ createAgentTemplate (dropBlanks config) = agent
  /\ agentView agentId emptyConfig
     = {| view_id := agentId; view_name := "Base Agent";
          view_instructions := "You are a helpful assistant.";
          view_personality := "neutral"; view_model := "qwen-2.5-32b";
          view_maxMemoryMessages := 10%float |}.
Proof.
  cbn zeta. repeat split.
  - unfold createAgentTemplate, agentView.
    cbn [agent_instructions view_instructions view_name view_personality].
    by rewrite composePrompt_trim, promptTemplate_trim.
  - unfold agentView, dropBlanks.
    cbn [name instructions personality model maxMemoryMessages].
    by rewrite !orElse_blank.
  - unfold createAgentTemplate, dropBlanks.
    cbn [name instructions personality model maxMemoryMessages].
    by rewrite !orElse_blank.
Qed.

(** C6 as stated fails on its last clause: a supplied maxMemoryMessages of
    [-5] is returned as [-5], which is not a positive integer. *)
Lemma negative_memory_bound_kept :
  fst (createAgentHandler (Some (withMemory friendlyConfig (-5)%float))
         (scriptedEnv (clockAround 1700000000000) greeting) (initialState "3000"))
  = Ok {| statusCode := 200;
          body := AgentCreated
                    {| view_id := "friendlybot"; view_name := "FriendlyBot";
                       view_instructions := "You are cheerful.";
                       view_personality := "friendly";
                       view_model := "qwen-2.5-32b";
                       view_maxMemoryMessages := (-5)%float |} |}
  /\ JS.isPositiveInteger (-5)%float = false.
Proof. split; reflexivity. Qed.

(** ** Start-up *)

Lemma next_ok e env st : exists r st', next e env st = (Ok r, st').
Proof. unfold next, bind, consoleError, ret. eauto. Qed.

Lemma tryCatch_next_ok m env st :
  exists r st', tryCatch m next env st = (Ok r, st').
Proof.
  unfold tryCatch. destruct (m env st) as [[r|e] st']; [eauto|apply next_ok].
Qed.

(** No handler lets a thrown value escape. *)
Lemma route_ok req env st : exists r st', route req env st = (Ok r, st').
Proof. destruct req; apply tryCatch_next_ok. Qed.

Lemma serveAll_halted env reason reqs :
  serveAll env (Halted reason) reqs = (Halted reason, map (fun _ => None) reqs).
Proof. induction reqs as [|req reqs IH]; [done|]. cbn. by rewrite IH. Qed.

(** C9.  When one of the two credentials is absent (or blank) at process
    start, start-up halts with the fatal error and not one of the requests
    that follow is answered.  Nothing else is fatal: with both credentials
    the server listens, and a listening server answers every request and
    goes on listening. *)
Theorem missing_credential_halts (penv : ProcessEnv) :
  JS.truthy (GOOGLE_API_KEY penv) = false \/ JS.truthy (GROQ_API_KEY penv) = false ->
  (exists reason,
      startServer penv = Halted reason
      /\ forall env reqs,
           serveAll env (startServer penv) reqs
           = (Halted reason, map (fun _ => None) reqs))
  /\ (forall penv',
        JS.truthy (GOOGLE_API_KEY penv') = true ->
        JS.truthy (GROQ_API_KEY penv') = true ->
        exists st, startServer penv' = Listening st)
  /\ (forall env st req, exists resp st',
        serve env (Listening st) req = (Listening st', Some resp)).
Proof.
  intros Hmissing. split; [|split].
  - unfold startServer.
    destruct (JS.truthy (GOOGLE_API_KEY penv)); cbn [negb].
    + destruct Hmissing as [?| ->]; [done|]. cbn [negb].
      eexists. split; [done|]. intros. apply serveAll_halted.
    + eexists. split; [done|]. intros. apply serveAll_halted.
  - intros penv' Hgoogle Hgroq. unfold startServer.
    rewrite Hgoogle, Hgroq. cbn [negb]. eauto.
  - intros env st req. destruct (route_ok req env st) as (r & st' & E).
    exists r, st'. cbn. by rewrite E.
Qed.

Lemma missing_credential_halts_witness :
  (JS.truthy (GOOGLE_API_KEY noGroqKey) = false
   \/ JS.truthy (GROQ_API_KEY noGroqKey) = false)
  /\ exists reason,
       startServer noGroqKey = Halted reason
       /\ forall env reqs,
            serveAll env (startServer noGroqKey) reqs
            = (Halted reason, map (fun _ => None) reqs).
Proof.
  assert (H : JS.truthy (GOOGLE_API_KEY noGroqKey) = false
              \/ JS.truthy (GROQ_API_KEY noGroqKey) = false)
    by (right; reflexivity).
  exact (conj H (proj1 (missing_credential_halts noGroqKey H))).
Defined.

(** ** Running the helpers and the handlers *)

Ltac run :=
  unfold bind, tryCatch, ret, throw, consoleLog, consoleError, recordCall,
    dateNow, outcomeToStream, readAgent, isTruthy in *;
  cbn [fst snd ticks calls console agentInstances] in *.

(** Without a callback the loop only logs: the fragments are appended in
    the order of arrival, behind what was accumulated before. *)
Lemma consumeStream_plain tag chunks fin acc env st :
  consumeStream tag None chunks fin acc env st
  = (match fin with
     | Completed => Ok (acc +:+ Spec.joinStrings chunks)
     | Aborted e => Throw e
     end,
     {| ticks := ticks st; calls := calls st;
        console := console st ++ map (chunkLine tag) chunks;
        agentInstances := agentInstances st |}).
Proof.
  revert acc st. induction chunks as [|chunk rest IH]; intros acc st.
  - destruct st, fin; cbn; unfold ret, throw;
      by rewrite app_nil_r, ?append_nil_r.
  - cbn [consumeStream]. run. rewrite IH. cbn [ticks calls console agentInstances map].
    rewrite <- app_assoc. cbn [app Spec.joinStrings foldr].
    by rewrite append_assoc.
Qed.

(** A stream that breaks off makes the loop throw, with or without a
    callback. *)
Lemma consumeStream_aborted tag onChunk chunks e acc env st :
  exists e' st', consumeStream tag onChunk chunks (Aborted e) acc env st = (Throw e', st').
Proof.
  revert acc st. induction chunks as [|chunk rest IH]; intros acc st.
  - cbn. run. eauto.
  - cbn [consumeStream]. run.
    destruct onChunk as [f|].
    + match goal with |- context [f chunk env ?s] =>
        destruct (f chunk env s) as [[[]|e1] st1] end; [apply IH|eauto].
    + apply IH.
Qed.

(** With a callback that does not throw, what the loop throws is the
    stream's own failure. *)
Lemma consumeStream_aborted_neverThrows tag f chunks e acc env st :
  neverThrows f ->
  exists st', consumeStream tag (Some f) chunks (Aborted e) acc env st = (Throw e, st').
Proof.
  intros Hf. revert acc st. induction chunks as [|chunk rest IH]; intros acc st.
  - cbn. run. eauto.
  - cbn [consumeStream]. run.
    match goal with |- context [f chunk env ?s] =>
      specialize (Hf chunk env s) as Hc; destruct (f chunk env s) as [[[]|e1] st1]
    end; [apply IH|done].
Qed.

(** [simulateConversation] on an agent: one call of the collaborator, the
    joined fragments when the stream completes and the apology otherwise,
    the registry untouched. *)
Lemma simulateConversation_agent a msg threadId resourceId env st :
  exists tid rid st',
    let outcome :=
      stream env (length (calls st))
        {| inv_agent := a; inv_message := msg;
           inv_threadId := tid; inv_resourceId := rid |} in
    simulateConversation (VAgent a) msg threadId resourceId env st
    = (Ok match outcome with
          | Streaming chunks Completed => Spec.joinStrings chunks
          | _ => apology
          end, st')
    /\ calls st' = calls st ++ [{| inv_agent := a; inv_message := msg;
                                    inv_threadId := tid; inv_resourceId := rid |}]
    /\ agentInstances st' = agentInstances st
    /\ (forall e, failure outcome = Some e ->
          last (console st')
          = Some (ConsoleError "Error in simulateConversation:" (Some (ShownExn e))))
    /\ (forall c r, threadId = Some (String c r) -> tid = String c r)
    /\ (forall c r, resourceId = Some (String c r) -> rid = String c r)
    /\ (JS.truthy threadId = true -> JS.truthy resourceId = true ->
        ticks st' = ticks st).
Proof.
  unfold simulateConversation.
  destruct threadId as [[|c1 r1]|], resourceId as [[|c2 r2]|];
    cbn [shownName idOr callStream]; run;
    match goal with |- context [stream env ?n ?inv] =>
      exists (inv_threadId inv), (inv_resourceId inv);
      cbn [inv_threadId inv_resourceId];
      destruct (stream env n inv) as [e|chunks [|e]] eqn:Hout
    end;
    run; cbn beta iota zeta; run;
    rewrite ?consumeStream_plain; cbn [fst snd ticks calls console agentInstances];
    (eexists; cbn zeta; rewrite ?Hout;
     (split; [reflexivity|]);
     cbn [ticks calls console agentInstances];
     (split; [reflexivity|]);
     (split; [reflexivity|]);
     (split; [intros e' He'; cbn in He'; simplify_eq; apply last_snoc|]);
     (split; [intros; by simplify_eq|]);
     split; intros; by simplify_eq).
Qed.

(** A value inherited from [Object.prototype] has no [stream] method: the
    call throws inside the helper's [try], and the helper returns the
    apology. *)
Lemma simulateConversation_builtin k msg threadId resourceId env st :
  exists st',
    simulateConversation (VBuiltin k) msg threadId resourceId env st
    = (Ok apology, st')
    /\ calls st' = calls st
    /\ agentInstances st' = agentInstances st
    /\ last (console st')
       = Some (ConsoleError "Error in simulateConversation:"
                 (Some (ShownExn (TypeError "agent.stream is not a function")))).
Proof.
  unfold simulateConversation.
  destruct threadId as [[|c1 r1]|], resourceId as [[|c2 r2]|];
    cbn [shownName idOr callStream]; run;
    (eexists; split; [reflexivity|]);
    cbn [calls agentInstances console]; (split; [done|]); (split; [done|]);
    apply last_snoc.
Qed.

(** [v || `${prefix}${Date.now()}`] never throws, yields a non-empty
    string, and touches nothing but the clock. *)
Lemma idOr_run v p ps env st :
  exists c r k,
    idOr v (String p ps) env st = (Ok (String c r), advance k st)
    /\ (forall c' r', v = Some (String c' r') -> String c r = String c' r').
Proof.
  destruct v as [[|c r]|]; cbn [idOr]; run.
  - eexists p, _, 1%nat. split; [reflexivity|]. intros; simplify_eq.
  - exists c, r, 0%nat. split; [by destruct st|]. intros; by simplify_eq.
  - eexists p, _, 1%nat. split; [reflexivity|]. intros; simplify_eq.
Qed.

(** The interact handler on a registered agent and a present message. *)
Lemma interact_agent agentId b c r a env st :
  message b = Some (String c r) ->
  getProperty (agentInstances st) agentId = VAgent a ->
  exists tid rid tid' rid' st',
    let inv := {| inv_agent := a; inv_message := String c r;
                  inv_threadId := tid; inv_resourceId := rid |} in
    let outcome := stream env (length (calls st)) inv in
    interactAgentHandler agentId (Some b) env st
    = (Ok {| statusCode := 200;
             body := Reply match outcome with
                           | Streaming chunks Completed => Spec.joinStrings chunks
                           | _ => apology
                           end tid' rid' |}, st')
    /\ calls st' = calls st ++ [inv]
    /\ agentInstances st' = agentInstances st
    /\ (forall e, failure outcome = Some e ->
          last (console st')
          = Some (ConsoleError "Error in simulateConversation:" (Some (ShownExn e))))
    /\ (forall c' r', threadId b = Some (String c' r') ->
          tid = String c' r' /\ tid' = String c' r')
    /\ (forall c' r', resourceId b = Some (String c' r') ->
          rid = String c' r' /\ rid' = String c' r').
Proof.
  intros Hmsg Hget. unfold interactAgentHandler. rewrite Hmsg. run.
  rewrite Hget. cbn beta iota zeta. run. cbn [negb]. cbn beta iota zeta.
  destruct (idOr_run (threadId b) "t" "hread_" env st) as (c1 & r1 & k1 & E1 & H1).
  change (String "t" "hread_") with "thread_" in E1. rewrite E1.
  destruct (idOr_run (resourceId b) "u" "ser_" env (advance k1 st))
    as (c2 & r2 & k2 & E2 & H2).
  change (String "u" "ser_") with "user_" in E2. rewrite E2.
  destruct (simulateConversation_agent a (String c r) (Some (String c1 r1))
              (Some (String c2 r2)) env (advance k2 (advance k1 st)))
    as (tid & rid & st1 & E & Hcalls & Hreg & Hlog & Ht & Hr & _).
  cbn zeta in E. rewrite E.
  rewrite (Ht c1 r1 eq_refl), (Hr c2 r2 eq_refl) in *. clear Ht Hr.
  destruct (idOr_run (threadId b) "t" "hread_" env st1) as (c3 & r3 & k3 & E3 & H3).
  change (String "t" "hread_") with "thread_" in E3. rewrite E3.
  destruct (idOr_run (resourceId b) "u" "ser_" env (advance k3 st1))
    as (c4 & r4 & k4 & E4 & H4).
  change (String "u" "ser_") with "user_" in E4. rewrite E4.
  exists (String c1 r1), (String c2 r2), (String c3 r3), (String c4 r4).
  eexists. cbn zeta. split; [reflexivity|].
  cbn [advance ticks calls console agentInstances] in *.
  repeat split; try done.
  - by apply H1.
  - by apply H3.
  - by apply H2.
  - by apply H4.
Qed.

(** Without identifiers in the request, the pair handed to the
    collaborator comes from the first two readings of the clock and the
    pair returned from the third and the fourth. *)
Lemma absent_session_reread agentId b c r a env st :
  message b = Some (String c r) ->
  threadId b = None ->
  resourceId b = None ->
  getProperty (agentInstances st) agentId = VAgent a ->
  exists text st',
    interactAgentHandler agentId (Some b) env st
    = (Ok {| statusCode := 200;
             body := Reply text
                       ("thread_" +:+ JS.numberToString (clock env (2 + ticks st)))
                       ("user_" +:+ JS.numberToString (clock env (3 + ticks st)))
          |}, st')
    /\ calls st'
       = calls st
         ++ [{| inv_agent := a; inv_message := String c r;
                inv_threadId :=
                  "thread_" +:+ JS.numberToString (clock env (ticks st));
                inv_resourceId :=
                  "user_" +:+ JS.numberToString (clock env (1 + ticks st)) |}].
Proof.
  intros Hmsg Htid Hrid Hget. unfold interactAgentHandler.
  rewrite Hmsg, Htid, Hrid. run.
  rewrite Hget. cbn beta iota zeta. run. cbn [negb idOr]. cbn beta iota zeta. run.
  match goal with |- context [simulateConversation _ _ (Some ?t) (Some ?u) env ?s] =>
    destruct (simulateConversation_agent a (String c r) (Some t) (Some u) env s)
      as (tid & rid & st1 & E & Hcalls & _ & _ & Ht & Hr & Hticks);
    assert (tid = t) as -> by (eapply (Ht "t"%char); reflexivity);
    assert (rid = u) as -> by (eapply (Hr "u"%char); reflexivity)
  end.
  cbn zeta in E. rewrite E. cbn [calls ticks] in *.
  rewrite (Hticks eq_refl eq_refl). eauto.
Qed.


(** An identity that resolves to a function inherited from
    [Object.prototype] is taken for a registered agent: the answer is the
    apology under status code 200, and no call of the collaborator is
    made. *)
Lemma interact_builtin agentId b c r k env st :
  message b = Some (String c r) ->
  getProperty (agentInstances st) agentId = VBuiltin k ->
  exists tid rid st',
    interactAgentHandler agentId (Some b) env st
    = (Ok {| statusCode := 200; body := Reply apology tid rid |}, st')
    /\ calls st' = calls st
    /\ agentInstances st' = agentInstances st.
Proof.
  intros Hmsg Hget. unfold interactAgentHandler. rewrite Hmsg. run.
  rewrite Hget. cbn beta iota zeta. run. cbn [negb]. cbn beta iota zeta.
  destruct (idOr_run (threadId b) "t" "hread_" env st) as (c1 & r1 & k1 & E1 & _).
  change (String "t" "hread_") with "thread_" in E1. rewrite E1.
  destruct (idOr_run (resourceId b) "u" "ser_" env (advance k1 st))
    as (c2 & r2 & k2 & E2 & _).
  change (String "u" "ser_") with "user_" in E2. rewrite E2.
  destruct (simulateConversation_builtin k (String c r) (Some (String c1 r1))
              (Some (String c2 r2)) env (advance k2 (advance k1 st)))
    as (st1 & E & Hcalls & Hreg & _).
  rewrite E.
  destruct (idOr_run (threadId b) "t" "hread_" env st1) as (c3 & r3 & k3 & E3 & _).
  change (String "t" "hread_") with "thread_" in E3. rewrite E3.
  destruct (idOr_run (resourceId b) "u" "ser_" env (advance k3 st1))
    as (c4 & r4 & k4 & E4 & _).
  change (String "u" "ser_") with "user_" in E4. rewrite E4.
  eexists _, _, _. split; [reflexivity|].
  by cbn [advance ticks calls console agentInstances] in *.
Qed.

(** While the prototype is intact, a key of [Object.prototype] that is not
    an own property resolves to the inherited function. *)
Lemma getProperty_builtin o k :
  proto o = None -> own o !! k = None ->
  k ∈ objectPrototypeKeys ->
  getProperty o k = VBuiltin k.
Proof.
  intros Hproto Hown Hk. unfold getProperty, isObjectPrototypeKey.
  rewrite Hown, Hproto, (bool_decide_eq_true_2 _ Hk).
  rewrite bool_decide_eq_false_2; [done|].
  intros ->. vm_compute in Hk. by repeat (apply elem_of_cons in Hk as [?|Hk]);
    try apply elem_of_nil in Hk.
Qed.

(** The assignment at [__proto__] stores nothing and replaces the
    prototype. *)
Lemma setProperty_proto_key env o a :
  own o !! "__proto__" = None ->
  setProperty env o "__proto__" a = inr {| own := own o; proto := Some a |}.
Proof. intros Hown. unfold setProperty. by rewrite Hown. Qed.

(** [streamConversation] on an agent whose call fails. *)
Lemma streamConversation_failure a msg tid rid onChunk env st e :
  failure (stream env (length (calls st))
             {| inv_agent := a; inv_message := msg;
                inv_threadId := tid; inv_resourceId := rid |}) = Some e ->
  exists e' st',
    streamConversation (VAgent a) msg tid rid onChunk env st = (Ok apology, st')
    /\ last (console st')
       = Some (ConsoleError "Error in streamConversation:" (Some (ShownExn e')))
    /\ (match onChunk with Some f => neverThrows f | None => True end -> e' = e)
    /\ (onChunk = None ->
          agentInstances st' = agentInstances st
          /\ calls st' = calls st ++ [{| inv_agent := a; inv_message := msg;
                                         inv_threadId := tid;
                                         inv_resourceId := rid |}]).
Proof.
  intros Hfail. unfold streamConversation. cbn [shownName callStream]. run.
  match goal with |- context [stream env ?n ?inv] =>
    destruct (stream env n inv) as [e0|chunks [|e0]] eqn:Hout
  end; cbn in Hfail; simplify_eq; run; cbn beta iota zeta; run.
  - eexists _, _. split; [reflexivity|]. cbn [console agentInstances calls].
    split; [apply last_snoc|]. done.
  - destruct onChunk as [f|].
    + match goal with |- context [consumeStream ?t ?o ?c ?fin ?acc env ?s] =>
        destruct (consumeStream_aborted t o c e acc env s) as (e' & st' & E);
        pose proof (consumeStream_aborted_neverThrows t f c e acc env s) as Hquiet
      end.
      rewrite E in *. eexists _, _. split; [reflexivity|]. cbn [console].
      split; [apply last_snoc|]. split; [|done].
      intros Hf. destruct (Hquiet Hf) as (st0 & E0). by simplify_eq.
    + rewrite consumeStream_plain. cbn [fst snd ticks calls console agentInstances].
      eexists _, _. split; [reflexivity|]. cbn [console agentInstances calls].
      split; [apply last_snoc|]. done.
Qed.

(** The two client-input answers of the interact handler: no message, no
    such agent.  Neither changes the state. *)
Lemma interact_missing_message agentId b env st :
  JS.truthy (message b) = false ->
  interactAgentHandler agentId (Some b) env st
  = (Ok {| statusCode := 400; body := ErrorBody "Missing message" None |}, st).
Proof.
  intros Hmsg. unfold interactAgentHandler.
  destruct (message b) as [[|c r]|]; by simplify_eq.
Qed.

Lemma interact_unknown agentId b c r env st :
  message b = Some (String c r) ->
  getProperty (agentInstances st) agentId = VUndefined ->
  interactAgentHandler agentId (Some b) env st
  = (Ok {| statusCode := 404;
           body := ErrorBody ("Agent with ID " +:+ agentId +:+ " not found") None |},
     st).
Proof.
  intros Hmsg Hget. unfold interactAgentHandler. rewrite Hmsg. run.
  by rewrite Hget.
Qed.

(** While the prototype is intact, a key that is neither an own property
    nor a key of [Object.prototype] resolves to [undefined]. *)
Lemma getProperty_undefined o k :
  proto o = None -> own o !! k = None ->
  k <> "__proto__" -> k ∉ objectPrototypeKeys ->
  getProperty o k = VUndefined.
Proof.
  intros Hproto Hown Hk Hkeys. unfold getProperty, isObjectPrototypeKey.
  rewrite Hown, Hproto. by rewrite !bool_decide_eq_false_2.
Qed.

(** While the prototype is intact, the assignment at a key other than
    [__proto__] inserts into the own properties. *)
Lemma setProperty_plain env o k a :
  proto o = None -> k <> "__proto__" ->
  setProperty env o k a = inr {| own := <[k := a]> (own o); proto := None |}.
Proof.
  intros Hproto Hk. unfold setProperty. rewrite Hproto.
  rewrite bool_decide_eq_false_2 by done. by destruct (own o !! k).
Qed.

(** On a registry whose prototype is intact, the assignment at a key other
    than [__proto__] is last-write-wins: the second agent is what the key
    resolves to, the first leaves no trace, every other key resolves as
    before. *)
Lemma register_overwrites env o k a1 a2 :
  proto o = None -> k <> "__proto__" ->
  exists o1 o2,
    setProperty env o k a1 = inr o1
    /\ setProperty env o1 k a2 = inr o2
    /\ setProperty env o k a2 = inr o2
    /\ getProperty o2 k = VAgent a2
    /\ forall k', k' <> k -> getProperty o2 k' = getProperty o k'.
Proof.
  intros Hproto Hk.
  exists {| own := <[k := a1]> (own o); proto := None |},
         {| own := <[k := a2]> (own o); proto := None |}.
  rewrite !setProperty_plain by done. cbn [own].
  rewrite insert_insert_eq. repeat split.
  - unfold getProperty. cbn [own]. by rewrite lookup_insert_eq.
  - intros k' Hk'. unfold getProperty. cbn [own proto].
    rewrite lookup_insert_ne by done. by rewrite Hproto.
Qed.

(** ** What a converse call hands to the collaborator *)




(** ** Failure of the collaborator *)

(** C8.  When the call the helper made of the collaborator throws, or is
    rejected, or its stream breaks off, [simulateConversation] returns
    normally with the fixed apology, the last thing written to the console
    is the error line carrying that very failure, and the registry is left
    as it was.  [streamConversation] does the same: it returns the apology
    whatever the callback, and the error line carries that very failure
    when there is no callback or the callback does not throw (a callback
    that throws first is what gets logged).  The process answers the
    request and goes on listening with its registry unchanged, so a later
    request meets the state an untroubled one would have left. *)
Theorem invocation_failure_degraded a msg threadId resourceId env st inv e :
  last (calls (snd (simulateConversation (VAgent a) msg threadId resourceId env st)))
  = Some inv ->
  failure (stream env (length (calls st)) inv) = Some e ->
  fst (simulateConversation (VAgent a) msg threadId resourceId env st) = Ok apology
  /\ last (console (snd (simulateConversation (VAgent a) msg threadId resourceId
                           env st)))
     = Some (ConsoleError "Error in simulateConversation:" (Some (ShownExn e)))
  /\ calls (snd (simulateConversation (VAgent a) msg threadId resourceId env st))
     = calls st ++ [inv]
  /\ agentInstances (snd (simulateConversation (VAgent a) msg threadId resourceId
                            env st))
     = agentInstances st
  /\ (forall tid rid onChunk cause,
        failure (stream env (length (calls st))
                   {| inv_agent := a; inv_message := msg;
                      inv_threadId := tid; inv_resourceId := rid |})
        = Some cause ->
        exists e' st',
          streamConversation (VAgent a) msg tid rid onChunk env st = (Ok apology, st')
          /\ last (console st')
             = Some (ConsoleError "Error in streamConversation:"
                       (Some (ShownExn e')))
          /\ (match onChunk with Some f => neverThrows f | None => True end ->
              e' = cause)
          /\ (onChunk = None -> agentInstances st' = agentInstances st))
  /\ (forall agentId b,
        getProperty (agentInstances st) agentId = VAgent a ->
        exists resp st',
          serve env (Listening st) (PostInteract agentId (Some b))
          = (Listening st', Some resp)
          /\ agentInstances st' = agentInstances st).
Proof.
  intros Hlast Hfail.
  destruct (simulateConversation_agent a msg threadId resourceId env st)
    as (tid & rid & st' & E & Hcalls & Hreg & Hlog & _).
  cbn zeta in E, Hlog. rewrite E in *. cbn [fst snd] in *.
  rewrite Hcalls, last_snoc in Hlast. injection Hlast as <-.
  split; [|split; [|split; [|split; [|split]]]]; try done.
  - by destruct (stream env (length (calls st)) _) as [|? []].
  - by apply Hlog.
  - intros tid0 rid0 onChunk cause Hcause.
    destruct (streamConversation_failure a msg tid0 rid0 onChunk env st cause Hcause)
      as (e' & st0 & E0 & Hlast0 & Hcause0 & Hnone).
    exists e', st0. split; [done|]. split; [done|]. split; [done|].
    intros Hno. by destruct (Hnone Hno).
  - intros agentId b Hget. cbn [serve route].
    destruct (message b) as [[|c r]|] eqn:Hmsg.
    + rewrite interact_missing_message by by rewrite Hmsg. eauto.
    + destruct (interact_agent agentId b c r a env st Hmsg Hget)
        as (? & ? & ? & ? & st1 & E1 & _ & Hreg1 & _).
      cbn zeta in E1. rewrite E1. eauto.
    + rewrite interact_missing_message by by rewrite Hmsg. eauto.
Qed.

Lemma invocation_failure_degraded_witness :
  let env := scriptedEnv (clockAround 1700000000000) cutOff in
  let a := createAgentTemplate friendlyConfig in
  let inv := {| inv_agent := a; inv_message := "Hello";
                inv_threadId := "t1"; inv_resourceId := "user_1700000000000" |} in
  last (calls (snd (simulateConversation (VAgent a) "Hello" (Some "t1") None
                      env friendlyState)))
  = Some inv
  /\ failure (stream env (length (calls friendlyState)) inv)
     = Some (PlainError "socket hang up")
  /\ fst (simulateConversation (VAgent a) "Hello" (Some "t1") None env friendlyState)
     = Ok apology
  /\ last (console (snd (simulateConversation (VAgent a) "Hello" (Some "t1") None
                           env friendlyState)))
     = Some (ConsoleError "Error in simulateConversation:"
               (Some (ShownExn (PlainError "socket hang up"))))
  /\ exists st',
       streamConversation (VAgent a) "Hello" "t1" "u1" (Some echoChunk)
         env friendlyState
       = (Ok apology, st')
       /\ last (console st')
          = Some (ConsoleError "Error in streamConversation:"
                    (Some (ShownExn (PlainError "socket hang up")))).
Proof.
  intros env a inv.
  assert (Hlast : last (calls (snd (simulateConversation (VAgent a) "Hello"
                                      (Some "t1") None env friendlyState)))
                  = Some inv) by (vm_compute; reflexivity).
  assert (Hfail : failure (stream env (length (calls friendlyState)) inv)
                  = Some (PlainError "socket hang up")) by reflexivity.
  pose proof (invocation_failure_degraded a "Hello" (Some "t1") None env
                friendlyState inv (PlainError "socket hang up") Hlast Hfail)
    as (Hres & Hlog & _ & _ & Hstream & _).
  destruct (Hstream "t1" "u1" (Some echoChunk) (PlainError "socket hang up") eq_refl)
    as (e' & st' & E & Hlog' & Hcause & _).
  rewrite (Hcause (fun s env0 st0 => eq_refl)) in Hlog'.
  exact (conj Hlast (conj Hfail (conj Hres (conj Hlog
           (ex_intro _ st' (conj E Hlog')))))).
Defined.

(** C10.  A converse call against a registered agent is always answered
    with status code 200 and the status field [success], whatever the
    collaborator does: the handler's own error answer is never produced.
    When the call made of the collaborator fails, the response text is the
    fixed apology, under the same status as a genuine reply. *)
Theorem stream_failure_answers_success agentId b c r a env st :
  message b = Some (String c r) ->
  getProperty (agentInstances st) agentId = VAgent a ->
  exists text tid rid,
    fst (interactAgentHandler agentId (Some b) env st)
    = Ok {| statusCode := 200; body := Reply text tid rid |}
    /\ statusField (Reply text tid rid) = "success"
    /\ (forall inv e,
          last (calls (snd (interactAgentHandler agentId (Some b) env st)))
          = Some inv ->
          failure (stream env (length (calls st)) inv) = Some e ->
          text = apology).
Proof.
  intros Hmsg Hget.
  destruct (interact_agent agentId b c r a env st Hmsg Hget)
    as (tid & rid & tid' & rid' & st' & E & Hcalls & _).
  cbn zeta in E. rewrite E. cbn [fst snd]. eexists _, tid', rid'.
  split; [reflexivity|]. split; [reflexivity|].
  intros inv e Hlast Hfail.
  rewrite Hcalls, last_snoc in Hlast. injection Hlast as <-.
  by destruct (stream env (length (calls st)) _) as [|? []].
Qed.

Lemma stream_failure_answers_success_witness :
  let env := scriptedEnv (clockAround 1700000000000) providerDown in
  message hello = Some "Hello"
  /\ getProperty (agentInstances friendlyState) "friendlybot"
     = VAgent (createAgentTemplate friendlyConfig)
  /\ exists text tid rid,
       fst (interactAgentHandler "friendlybot" (Some hello) env friendlyState)
       = Ok {| statusCode := 200; body := Reply text tid rid |}
       /\ statusField (Reply text tid rid) = "success"
       /\ (forall inv e,
             last (calls (snd (interactAgentHandler "friendlybot" (Some hello)
                                 env friendlyState)))
             = Some inv ->
             failure (stream env (length (calls friendlyState)) inv) = Some e ->
             text = apology).
Proof.
  intros env. split; [reflexivity|]. split; [vm_compute; reflexivity|].
  exact (stream_failure_answers_success "friendlybot" hello "H" "ello"
           (createAgentTemplate friendlyConfig) env friendlyState
           eq_refl eq_refl).
Defined.

(** The run behind C10, evaluated: the provider is down, the caller reads
    [success] and the apology. *)
Example provider_down_answers_success :
  fst (interactAgentHandler "friendlybot" (Some hello)
         (scriptedEnv (clockAround 1700000000000) providerDown) friendlyState)
  = Ok {| statusCode := 200;
          body := Reply apology "thread_1700000000850" "user_1700000000850" |}.
Proof. vm_compute. reflexivity. Qed.

(** ** Session identifiers *)

(** X17.  Identifiers supplied with the request are the ones handed to the
    collaborator and the ones returned. *)
Lemma supplied_session_echoed agentId b c r a ct rt cr rr env st :
  message b = Some (String c r) ->
  threadId b = Some (String ct rt) ->
  resourceId b = Some (String cr rr) ->
  getProperty (agentInstances st) agentId = VAgent a ->
  exists text st',
    interactAgentHandler agentId (Some b) env st
    = (Ok {| statusCode := 200;
             body := Reply text (String ct rt) (String cr rr) |}, st')
    /\ calls st' = calls st ++ [{| inv_agent := a; inv_message := String c r;
                                    inv_threadId := String ct rt;
                                    inv_resourceId := String cr rr |}].
Proof.
  intros Hmsg Htid Hrid Hget.
  destruct (interact_agent agentId b c r a env st Hmsg Hget)
    as (tid & rid & tid' & rid' & st' & E & Hcalls & _ & _ & Ht & Hr).
  destruct (Ht _ _ Htid) as [-> ->]. destruct (Hr _ _ Hrid) as [-> ->].
  cbn zeta in E. eauto.
Qed.

(** C3, at the failing input.  A converse call without identifiers, on a
    clock that moves while the model answers: the collaborator is called
    with the pair read before the call, the caller is given the pair read
    after it. *)
Theorem interact_session_reread :
  let run :=
    interactAgentHandler "friendlybot" (Some hello)
      (scriptedEnv (clockAround 1700000000000) greeting) friendlyState in
  fst run
  = Ok {| statusCode := 200;
          body := Reply "Hi there" "thread_1700000000850" "user_1700000000850" |}
  /\ calls (snd run)
     = [{| inv_agent := createAgentTemplate friendlyConfig;
           inv_message := "Hello";
           inv_threadId := "thread_1700000000000";
           inv_resourceId := "user_1700000000000" |}].
Proof. split; vm_compute; reflexivity. Qed.

(** ** The registry *)

(** C4, at the failing input.  Two agents created in sequence under the
    name [__proto__] on a fresh server are each answered as a success
    under the identity [__proto__], yet the registry holds no entry
    afterwards (the health check counts none): each assignment has made
    its agent the prototype of the registry object.  The identity [name],
    which resolved to nothing before, now resolves to the member [name] of
    the second agent. *)
Theorem register_at_proto_key :
  let env := scriptedEnv (clockAround 1700000000000) greeting in
  let first := named "__proto__" in
  let second := instructed "__proto__" "You are terse." in
  let run1 := createAgentHandler (Some first) env (initialState "3000") in
  let run2 := createAgentHandler (Some second) env (snd run1) in
  fst run1
  = Ok {| statusCode := 200; body := AgentCreated (agentView "__proto__" first) |}
  /\ fst run2
     = Ok {| statusCode := 200; body := AgentCreated (agentView "__proto__" second) |}
  /\ own (agentInstances (snd run2)) = ∅
  /\ proto (agentInstances (snd run2)) = Some (createAgentTemplate second)
  /\ fst (healthCheckHandler env (snd run2))
     = Ok {| statusCode := 200; body := Health 0 |}
  /\ getProperty (agentInstances (initialState "3000")) "name" = VUndefined
  /\ getProperty (agentInstances (snd run2)) "name"
     = VMember (createAgentTemplate second) "name".
Proof. repeat split; vm_compute; reflexivity. Qed.

(** C5, at the failing input.  On a fresh server no agent is registered,
    yet the identity [constructor] resolves to the function inherited from
    [Object.prototype]; the converse call is answered with status code 200
    and the apology, the console showing the [TypeError] of the call of a
    [stream] method that does not exist.  The registry is unchanged. *)
Theorem interact_inherited_key :
  let run :=
    interactAgentHandler "constructor" (Some hello)
      (scriptedEnv (clockAround 1700000000000) greeting) (initialState "3000") in
  own (agentInstances (initialState "3000")) !! "constructor" = None
  /\ getProperty (agentInstances (initialState "3000")) "constructor"
     = VBuiltin "constructor"
  /\ fst run
     = Ok {| statusCode := 200;
             body := Reply apology "thread_1700000000850" "user_1700000000850" |}
  /\ last (console (snd run))
     = Some (ConsoleError "Error in simulateConversation:"
               (Some (ShownExn (TypeError "agent.stream is not a function"))))
  /\ agentInstances (snd run) = agentInstances (initialState "3000").
Proof. repeat split; vm_compute; reflexivity. Qed.

(** ** Two ordinary runs *)

(** With both credentials the server listens on the default port. *)
Example started_with_credentials :
  startServer credentials = Listening (initialState "3000").
Proof. reflexivity. Qed.

(** Create, then converse with identifiers of the caller's own: they reach
    the collaborator and come back unchanged. *)
Example create_then_converse :
  let env := scriptedEnv (clockAround 1700000000000) greeting in
  let run := interactAgentHandler "friendlybot" (Some (helloIn "t1" "u1")) env
               friendlyState in
  fst run = Ok {| statusCode := 200; body := Reply "Hi there" "t1" "u1" |}
  /\ calls (snd run)
     = [{| inv_agent := createAgentTemplate friendlyConfig;
           inv_message := "Hello";
           inv_threadId := "t1"; inv_resourceId := "u1" |}].
Proof. split; vm_compute; reflexivity. Qed.

(** * Further properties of the code *)

(** ** Creating agents *)

(** The answer of the create handler, as the framework's constructor
    decides it, and the line the error middleware writes. *)
Lemma createAgentHandler_stored env st0 reg id config :
  tryCatch
    (registerAgentInstances ;;
     ret {| statusCode := 200; body := AgentCreated (agentView id config) |})
    next env
    {| ticks := ticks st0; calls := calls st0; console := console st0;
       agentInstances := reg |}
  = (Ok match mastra env reg with
        | None => {| statusCode := 200; body := AgentCreated (agentView id config) |}
        | Some e => {| statusCode := 500;
                       body := ErrorBody "Internal server error"
                                 (Some (exnMessage e)) |}
        end,
     {| ticks := ticks st0; calls := calls st0;
        console := console st0
                   ++ match mastra env reg with
                      | None => []
                      | Some e => [ConsoleError "Server error:" (Some (ShownExn e))]
                      end;
        agentInstances := reg |}).
Proof.
  unfold registerAgentInstances, next. run.
  destruct (mastra env reg); [done|]. by rewrite app_nil_r.
Qed.

(** The create handler on a configuration with a name, against a registry
    whose prototype is intact: the agent is stored under the derived
    identity, and the registry is then handed to the framework. *)
Lemma createAgentHandler_named config nm env st :
  name config = Some nm -> nm <> "" ->
  proto (agentInstances st) = None ->
  JS.replaceWhitespaceRuns (JS.toLowerCase nm) <> "__proto__" ->
  let id := JS.replaceWhitespaceRuns (JS.toLowerCase nm) in
  let reg := {| own := <[id := createAgentTemplate config]> (own (agentInstances st));
                proto := None |} in
  createAgentHandler (Some config) env st
  = (Ok match mastra env reg with
        | None => {| statusCode := 200; body := AgentCreated (agentView id config) |}
        | Some e => {| statusCode := 500;
                       body := ErrorBody "Internal server error"
                                 (Some (exnMessage e)) |}
        end,
     {| ticks := ticks st; calls := calls st;
        console := console st
                   ++ match mastra env reg with
                      | None => []
                      | Some e => [ConsoleError "Server error:" (Some (ShownExn e))]
                      end;
        agentInstances := reg |}).
Proof.
  intros Hname Hnm Hproto Hid. cbn zeta.
  rewrite <- (createAgentHandler_stored env st).
  destruct (identity_nonempty nm Hnm) as (c & r & E).
  unfold createAgentHandler, deriveIdentity, storeAgent. rewrite Hname.
  cbn [option_map]. rewrite E in *. cbn [idOr]. run.
  by rewrite setProperty_plain.
Qed.

(** The same without a usable name: the identity is made from the next
    reading of the clock. *)
Lemma createAgentHandler_nameless config env st :
  JS.truthy (name config) = false ->
  proto (agentInstances st) = None ->
  let id := "agent_" +:+ JS.numberToString (clock env (ticks st)) in
  let reg := {| own := <[id := createAgentTemplate config]> (own (agentInstances st));
                proto := None |} in
  createAgentHandler (Some config) env st
  = (Ok match mastra env reg with
        | None => {| statusCode := 200; body := AgentCreated (agentView id config) |}
        | Some e => {| statusCode := 500;
                       body := ErrorBody "Internal server error"
                                 (Some (exnMessage e)) |}
        end,
     {| ticks := S (ticks st); calls := calls st;
        console := console st
                   ++ match mastra env reg with
                      | None => []
                      | Some e => [ConsoleError "Server error:" (Some (ShownExn e))]
                      end;
        agentInstances := reg |}).
Proof.
  intros Hname Hproto. cbn zeta.
  rewrite <- (createAgentHandler_stored env (advance 1 st)).
  unfold createAgentHandler, deriveIdentity, storeAgent.
  destruct (name config) as [[|c r]|]; [|done|];
    cbn [option_map JS.toLowerCase JS.replaceWhitespaceRuns idOr]; run;
    by rewrite setProperty_plain.
Qed.

(** X1.  Create, then look up.  For a configuration with a non-empty name
    whose identity is not [__proto__], on a registry whose prototype is
    intact, the create handler stores the agent built from the
    configuration under the derived identity, whatever the framework then
    does with the registry: the identity resolves to exactly that agent,
    every other key resolves as before, no clock is read and no call of
    the collaborator is made.  The answer is decided by the framework's
    constructor on the registry so extended: when it returns, 200 with
    the identity and nothing logged; when it throws, 500 with the message
    of what it threw and one [Server error:] line, the agent staying
    registered all the same. *)
Theorem create_then_resolve config nm env st :
  name config = Some nm -> nm <> "" ->
  proto (agentInstances st) = None ->
  JS.replaceWhitespaceRuns (JS.toLowerCase nm) <> "__proto__" ->
  let id := JS.replaceWhitespaceRuns (JS.toLowerCase nm) in
  let run := createAgentHandler (Some config) env st in
  getProperty (agentInstances (snd run)) id = VAgent (createAgentTemplate config)
  /\ (forall k, k <> id ->
        getProperty (agentInstances (snd run)) k = getProperty (agentInstances st) k)
  /\ ticks (snd run) = ticks st
  /\ calls (snd run) = calls st
  /\ match mastra env (agentInstances (snd run)) with
     | None =>
         fst run
         = Ok {| statusCode := 200; body := AgentCreated (agentView id config) |}
         /\ console (snd run) = console st
     | Some e =>
         fst run
         = Ok {| statusCode := 500;
                 body := ErrorBody "Internal server error" (Some (exnMessage e)) |}
         /\ console (snd run)
            = console st ++ [ConsoleError "Server error:" (Some (ShownExn e))]
     end.
Proof.
  intros Hname Hnm Hproto Hid. cbn zeta.
  rewrite (createAgentHandler_named config nm env st Hname Hnm Hproto Hid).
  cbn [fst snd agentInstances ticks calls console]. repeat split.
  - unfold getProperty. cbn [own]. by rewrite lookup_insert_eq.
  - intros k Hk. unfold getProperty. cbn [own proto].
    rewrite lookup_insert_ne by done. by rewrite Hproto.
  - destruct (mastra env _); split; try reflexivity. apply app_nil_r.
Qed.

Lemma create_then_resolve_witness :
  let env := scriptedEnv (clockAround 1700000000000) greeting in
  let st := initialState "3000" in
  let run := createAgentHandler (Some friendlyConfig) env st in
  let refused := createAgentHandler (Some (named "Constructor")) env st in
  (name friendlyConfig = Some "FriendlyBot"
   /\ "FriendlyBot" <> ""
   /\ proto (agentInstances st) = None
   /\ JS.replaceWhitespaceRuns (JS.toLowerCase "FriendlyBot") <> "__proto__"
   /\ getProperty (agentInstances (snd run)) "friendlybot"
      = VAgent (createAgentTemplate friendlyConfig)
   /\ fst run
      = Ok {| statusCode := 200;
              body := AgentCreated (agentView "friendlybot" friendlyConfig) |})
  /\ (name (named "Constructor") = Some "Constructor"
      /\ "Constructor" <> ""
      /\ JS.replaceWhitespaceRuns (JS.toLowerCase "Constructor") <> "__proto__"
      /\ getProperty (agentInstances (snd refused)) "constructor"
         = VAgent (createAgentTemplate (named "Constructor"))
      /\ exists e,
           mastra env (agentInstances (snd refused)) = Some e
           /\ fst refused
              = Ok {| statusCode := 500;
                      body := ErrorBody "Internal server error"
                                (Some (exnMessage e)) |}
           /\ console (snd refused)
              = console st ++ [ConsoleError "Server error:" (Some (ShownExn e))]).
Proof.
  intros env st run refused.
  assert (H1 : name friendlyConfig = Some "FriendlyBot") by reflexivity.
  assert (H2 : "FriendlyBot" <> "") by discriminate.
  assert (H3 : proto (agentInstances st) = None) by reflexivity.
  assert (H4 : JS.replaceWhitespaceRuns (JS.toLowerCase "FriendlyBot") <> "__proto__")
    by (vm_compute; discriminate).
  assert (H5 : name (named "Constructor") = Some "Constructor") by reflexivity.
  assert (H6 : "Constructor" <> "") by discriminate.
  assert (H7 : JS.replaceWhitespaceRuns (JS.toLowerCase "Constructor") <> "__proto__")
    by (vm_compute; discriminate).
  pose proof (create_then_resolve friendlyConfig "FriendlyBot" env st H1 H2 H3 H4)
    as (Hget & _ & _ & _ & Hanswer).
  pose proof (create_then_resolve (named "Constructor") "Constructor" env st
                H5 H6 H3 H7) as (Hget' & _ & _ & _ & Hanswer').
  cbn zeta in Hanswer, Hanswer'.
  assert (Hacc : mastra env (agentInstances
                               (snd (createAgentHandler (Some friendlyConfig) env st)))
                 = None) by (vm_compute; reflexivity).
  rewrite Hacc in Hanswer.
  destruct (mastra env (agentInstances
                          (snd (createAgentHandler (Some (named "Constructor")) env st))))
    as [e|] eqn:Hrefused; [|vm_compute in Hrefused; discriminate].
  split.
  - exact (conj H1 (conj H2 (conj H3 (conj H4 (conj Hget (proj1 Hanswer)))))).
  - exact (conj H5 (conj H6 (conj H7 (conj Hget'
             (ex_intro _ e (conj Hrefused Hanswer')))))).
Defined.

(** X2.  The health check counts what the create handler stores: for a
    configuration with a non-empty name whose identity is not [__proto__],
    on a registry whose prototype is intact, the count reported after the
    creation is one more than before when the identity was free, and the
    same when the identity was taken (the agent there is replaced). *)
Theorem health_after_create config nm env st :
  name config = Some nm -> nm <> "" ->
  proto (agentInstances st) = None ->
  JS.replaceWhitespaceRuns (JS.toLowerCase nm) <> "__proto__" ->
  fst (healthCheckHandler env (snd (createAgentHandler (Some config) env st)))
  = Ok {| statusCode := 200;
          body := Health
                    match own (agentInstances st)
                          !! JS.replaceWhitespaceRuns (JS.toLowerCase nm) with
                    | Some _ => size (own (agentInstances st))
                    | None => S (size (own (agentInstances st)))
                    end |}.
Proof.
  intros Hname Hnm Hproto Hid.
  rewrite (createAgentHandler_named config nm env st Hname Hnm Hproto Hid).
  unfold healthCheckHandler. cbn [fst snd agentInstances own].
  rewrite map_size_insert.
  by destruct (own (agentInstances st) !! _).
Qed.

Lemma health_after_create_witness :
  let env := scriptedEnv (clockAround 1700000000000) greeting in
  name friendlyConfig = Some "FriendlyBot"
  /\ "FriendlyBot" <> ""
  /\ proto (agentInstances friendlyState) = None
  /\ JS.replaceWhitespaceRuns (JS.toLowerCase "FriendlyBot") <> "__proto__"
  /\ fst (healthCheckHandler env
            (snd (createAgentHandler (Some friendlyConfig) env friendlyState)))
     = Ok {| statusCode := 200; body := Health 1 |}.
Proof.
  intros env.
  assert (H1 : name friendlyConfig = Some "FriendlyBot") by reflexivity.
  assert (H2 : "FriendlyBot" <> "") by discriminate.
  assert (H3 : proto (agentInstances friendlyState) = None) by reflexivity.
  assert (H4 : JS.replaceWhitespaceRuns (JS.toLowerCase "FriendlyBot") <> "__proto__")
    by (vm_compute; discriminate).
  exact (conj H1 (conj H2 (conj H3 (conj H4
           (health_after_create friendlyConfig "FriendlyBot" env friendlyState
              H1 H2 H3 H4))))).
Defined.

(** Decimal texts of different integers differ. *)
Lemma numberToString_inj a b :
  JS.numberToString a = JS.numberToString b -> a = b.
Proof.
  unfold JS.numberToString. intros H.
  apply DecimalZ.to_int_inj.
  assert (Hnil : forall z, Z.to_int z <> Decimal.Pos Decimal.Nil
                           /\ Z.to_int z <> Decimal.Neg Decimal.Nil).
  { intros [|p|p]; cbn; split; try discriminate;
      intros [= Hp]; by apply DecimalPos.Unsigned.to_uint_nonnil in Hp. }
  apply (f_equal NilZero.int_of_string) in H.
  rewrite !NilZero.isi in H by apply Hnil. by injection H.
Qed.

Lemma append_inj_r s t u : s +:+ t = s +:+ u -> t = u.
Proof. induction s as [|c s IH]; [done|]. intros [= H]. auto. Qed.

(** X3.  Two agents created without a usable name, one after the other, on
    a registry whose prototype is intact: each is stored under the
    identity [agent_] followed by the clock reading of its creation and is
    named ["Base Agent"], and each creation is answered 200 with that
    identity when the framework's constructor accepts the registry it is
    then given.  When the two readings differ both agents can be resolved
    afterwards, whatever the answers were. *)
Theorem nameless_creations_kept config1 config2 env st :
  JS.truthy (name config1) = false ->
  JS.truthy (name config2) = false ->
  proto (agentInstances st) = None ->
  clock env (ticks st) <> clock env (S (ticks st)) ->
  let id1 := "agent_" +:+ JS.numberToString (clock env (ticks st)) in
  let id2 := "agent_" +:+ JS.numberToString (clock env (S (ticks st))) in
  let run1 := createAgentHandler (Some config1) env st in
  let run2 := createAgentHandler (Some config2) env (snd run1) in
  (mastra env (agentInstances (snd run1)) = None ->
   fst run1 = Ok {| statusCode := 200; body := AgentCreated (agentView id1 config1) |})
  /\ (mastra env (agentInstances (snd run2)) = None ->
      fst run2
      = Ok {| statusCode := 200; body := AgentCreated (agentView id2 config2) |})
  /\ view_name (agentView id1 config1) = "Base Agent"
  /\ getProperty (agentInstances (snd run2)) id1 = VAgent (createAgentTemplate config1)
  /\ getProperty (agentInstances (snd run2)) id2 = VAgent (createAgentTemplate config2).
Proof.
  intros Hn1 Hn2 Hproto Hclock. cbn zeta.
  rewrite (createAgentHandler_nameless config1 env st Hn1 Hproto). cbn [fst snd].
  rewrite createAgentHandler_nameless by done. cbn [fst snd ticks agentInstances own].
  split; [by intros ->|]. split; [by intros ->|]. repeat split.
  - unfold agentView; cbn. by destruct (name config1) as [[|]|].
  - unfold getProperty. cbn [own].
    rewrite lookup_insert_ne, lookup_insert_eq; [done|].
    intros H%append_inj_r%numberToString_inj. by apply Hclock.
  - unfold getProperty. cbn [own]. by rewrite lookup_insert_eq.
Qed.

(** X4.  The same two creations when the clock shows the same reading for
    both: they share one identity, under which each is answered 200 when
    the framework's constructor accepts the registry; the second agent
    replaces the first, and the registry does not grow with the second
    creation. *)
Theorem nameless_creations_collide config1 config2 env st :
  JS.truthy (name config1) = false ->
  JS.truthy (name config2) = false ->
  proto (agentInstances st) = None ->
  clock env (ticks st) = clock env (S (ticks st)) ->
  let id := "agent_" +:+ JS.numberToString (clock env (ticks st)) in
  let run1 := createAgentHandler (Some config1) env st in
  let run2 := createAgentHandler (Some config2) env (snd run1) in
  (mastra env (agentInstances (snd run1)) = None ->
   fst run1 = Ok {| statusCode := 200; body := AgentCreated (agentView id config1) |})
  /\ (mastra env (agentInstances (snd run2)) = None ->
      fst run2 = Ok {| statusCode := 200; body := AgentCreated (agentView id config2) |})
  /\ getProperty (agentInstances (snd run1)) id = VAgent (createAgentTemplate config1)
  /\ getProperty (agentInstances (snd run2)) id = VAgent (createAgentTemplate config2)
  /\ size (own (agentInstances (snd run2))) = size (own (agentInstances (snd run1))).
Proof.
  intros Hn1 Hn2 Hproto Hclock. cbn zeta.
  rewrite (createAgentHandler_nameless config1 env st Hn1 Hproto). cbn [fst snd].
  rewrite createAgentHandler_nameless by done. cbn [fst snd ticks agentInstances own].
  rewrite <- Hclock.
  split; [by intros ->|]. split; [by intros ->|]. repeat split.
  - unfold getProperty. cbn [own]. by rewrite lookup_insert_eq.
  - unfold getProperty. cbn [own]. by rewrite lookup_insert_eq.
  - apply map_size_insert_Some. rewrite lookup_insert_eq. eauto.
Qed.

(** X5.  Two names that derive the same identity share one registry entry:
    created one after the other (prototype intact, identity other than
    [__proto__]), each is answered 200 with that identity when the
    framework's constructor accepts the registry; after the second
    creation the identity resolves to the second configuration's agent,
    and the registry has not grown with it.  Names that differ only in
    letter case or in the length of their runs of white space are such
    names. *)
Theorem colliding_names_share_entry config1 config2 nm1 nm2 env st :
  name config1 = Some nm1 -> nm1 <> "" ->
  name config2 = Some nm2 -> nm2 <> "" ->
  JS.replaceWhitespaceRuns (JS.toLowerCase nm1)
  = JS.replaceWhitespaceRuns (JS.toLowerCase nm2) ->
  JS.replaceWhitespaceRuns (JS.toLowerCase nm1) <> "__proto__" ->
  proto (agentInstances st) = None ->
  let id := JS.replaceWhitespaceRuns (JS.toLowerCase nm1) in
  let run1 := createAgentHandler (Some config1) env st in
  let run2 := createAgentHandler (Some config2) env (snd run1) in
  (mastra env (agentInstances (snd run1)) = None ->
   fst run1 = Ok {| statusCode := 200; body := AgentCreated (agentView id config1) |})
  /\ (mastra env (agentInstances (snd run2)) = None ->
      fst run2 = Ok {| statusCode := 200; body := AgentCreated (agentView id config2) |})
  /\ getProperty (agentInstances (snd run1)) id = VAgent (createAgentTemplate config1)
  /\ getProperty (agentInstances (snd run2)) id = VAgent (createAgentTemplate config2)
  /\ size (own (agentInstances (snd run2))) = size (own (agentInstances (snd run1))).
Proof.
  intros Hn1 Hnm1 Hn2 Hnm2 Hsame Hid Hproto. cbn zeta.
  rewrite (createAgentHandler_named config1 nm1 env st Hn1 Hnm1 Hproto Hid).
  cbn [fst snd].
  rewrite (createAgentHandler_named config2 nm2) by (done || by rewrite <- Hsame).
  cbn [fst snd agentInstances own]. rewrite <- Hsame.
  split; [by intros ->|]. split; [by intros ->|]. repeat split.
  - unfold getProperty. cbn [own]. by rewrite lookup_insert_eq.
  - unfold getProperty. cbn [own]. by rewrite lookup_insert_eq.
  - apply map_size_insert_Some. rewrite lookup_insert_eq. eauto.
Qed.

(** ** The derived identity, continued *)

Lemma lowerUnit_idem c : JS.lowerUnit (JS.lowerUnit c) = JS.lowerUnit c.
Proof. by destruct c as [[] [] [] [] [] [] [] []]. Qed.

Lemma toLowerCase_idem s : JS.toLowerCase (JS.toLowerCase s) = JS.toLowerCase s.
Proof.
  induction s as [|c r IH]; [done|]. cbn. by rewrite lowerUnit_idem, IH.
Qed.

(** Neither the scan nor the inside of a match lets white space through. *)
Lemma scan_leaves_no_whitespace s :
  allUnits (fun c => negb (JS.isWhiteSpace c)) (JS.replaceWhitespaceRuns s) = true
  /\ allUnits (fun c => negb (JS.isWhiteSpace c)) (JS.inMatch s) = true.
Proof.
  induction s as [|c r [IHscan IHin]]; [done|].
  cbn [JS.replaceWhitespaceRuns JS.inMatch].
  destruct (JS.isWhiteSpace c) eqn:Hc; cbn [allUnits]; rewrite ?Hc; auto.
Qed.

(** A string without white space goes through the replacement unchanged. *)
Lemma scan_without_whitespace s :
  allUnits (fun c => negb (JS.isWhiteSpace c)) s = true ->
  JS.replaceWhitespaceRuns s = s.
Proof.
  induction s as [|c r IH]; [done|]. cbn [allUnits JS.replaceWhitespaceRuns].
  intros [Hc Hr]%andb_true_iff. apply negb_true_iff in Hc. rewrite Hc.
  by rewrite IH.
Qed.

(** Lower-casing commutes with the replacement. *)
Lemma scan_of_lower s :
  JS.toLowerCase s = s ->
  JS.toLowerCase (JS.replaceWhitespaceRuns s) = JS.replaceWhitespaceRuns s
  /\ JS.toLowerCase (JS.inMatch s) = JS.inMatch s.
Proof.
  induction s as [|c r IH]; [done|]. cbn [JS.toLowerCase].
  intros [= Hc Hr]. destruct (IH Hr) as [IHscan IHin].
  cbn [JS.replaceWhitespaceRuns JS.inMatch].
  destruct (JS.isWhiteSpace c); cbn [JS.toLowerCase];
    rewrite ?Hc, ?IHscan, ?IHin; auto.
Qed.

(** X6.  The identity derived from a name holds no white space, and it is
    its own identity: deriving again from it gives it back, so an agent
    named after its identity keeps that identity. *)
Theorem identity_is_stable (nm : string) :
  let id := JS.replaceWhitespaceRuns (JS.toLowerCase nm) in
  allUnits (fun c => negb (JS.isWhiteSpace c)) id = true
  /\ JS.replaceWhitespaceRuns (JS.toLowerCase id) = id
  /\ (forall env st,
        deriveIdentity (Some id) env st = deriveIdentity (Some nm) env st).
Proof.
  cbn zeta.
  assert (Hws := proj1 (scan_leaves_no_whitespace (JS.toLowerCase nm))).
  assert (Hlow := proj1 (scan_of_lower (JS.toLowerCase nm) (toLowerCase_idem nm))).
  split; [exact Hws|]. split.
  - rewrite Hlow. by apply scan_without_whitespace.
  - intros env st. unfold deriveIdentity. cbn [option_map].
    rewrite Hlow. by rewrite scan_without_whitespace.
Qed.

(** ** The system prompt, continued *)

Lemma trimStart_whitespace w t :
  allUnits JS.isWhiteSpace w = true ->
  JS.trimStart (w +:+ t) = JS.trimStart t.
Proof.
  induction w as [|c w IH]; [done|]. cbn [allUnits].
  intros [Hc Hw]%andb_true_iff. rewrite append_cons. cbn [JS.trimStart].
  rewrite Hc. auto.
Qed.

(** X7.  Instructions made of white space only are not blank, so the
    default instructions are not used; and they do not survive the
    trimming either: the system prompt is the name line and the tone line
    alone. *)
Theorem whitespace_instructions_vanish config w :
  instructions config = Some w -> w <> "" ->
  allUnits JS.isWhiteSpace w = true ->
  agent_instructions (createAgentTemplate config)
  = "Your name is " +:+ JS.orElse (name config) "Base Agent" +:+ "." +:+ JS.LF
    +:+ "Please respond in a " +:+ JS.orElse (personality config) "neutral"
    +:+ " tone.".
Proof.
  intros Hinstr Hw Hws. unfold createAgentTemplate. cbn [agent_instructions].
  rewrite promptTemplate_trim, Hinstr.
  destruct w as [|c r]; [done|]. cbn [JS.orElse].
  by rewrite trimStart_whitespace.
Qed.

(** ** What leaves the registry alone *)

Section KeepsRegistry.

Lemma keeps_ret {A} (a : A) : keepsRegistry (ret a).
Proof. by intros env st. Qed.

Lemma keeps_throw {A} e : keepsRegistry (@throw A e).
Proof. by intros env st. Qed.

Lemma keeps_bind {A B} (m : M A) (k : A -> M B) :
  keepsRegistry m -> (forall a, keepsRegistry (k a)) -> keepsRegistry (bind m k).
Proof.
  intros Hm Hk env st. unfold bind. specialize (Hm env st).
  destruct (m env st) as [[a|e] st1]; cbn [snd] in *; [|done].
  by rewrite Hk.
Qed.

Lemma keeps_tryCatch {A} (m : M A) handler :
  keepsRegistry m -> (forall e, keepsRegistry (handler e)) ->
  keepsRegistry (tryCatch m handler).
Proof.
  intros Hm Hh env st. unfold tryCatch. specialize (Hm env st).
  destruct (m env st) as [[a|e] st1]; cbn [snd] in *; [done|].
  by rewrite Hh.
Qed.

Lemma keeps_consoleLog text arg : keepsRegistry (consoleLog text arg).
Proof. by intros env st. Qed.

Lemma keeps_consoleError text arg : keepsRegistry (consoleError text arg).
Proof. by intros env st. Qed.

Lemma keeps_dateNow : keepsRegistry dateNow.
Proof. by intros env st. Qed.

Lemma keeps_idOr v prefix : keepsRegistry (idOr v prefix).
Proof.
  destruct v as [[|c r]|]; cbn [idOr];
    repeat first [apply keeps_bind; [|intros ?] | apply keeps_dateNow | apply keeps_ret].
Qed.

Lemma keeps_shownName v : keepsRegistry (shownName v).
Proof.
  destruct v; cbn [shownName]; try (apply keeps_ret || apply keeps_throw).
  intros env st. by destruct (member_name (member env a k)).
Qed.

Lemma keeps_outcomeToStream o : keepsRegistry (outcomeToStream o).
Proof. destruct o; [apply keeps_throw|apply keeps_ret]. Qed.

Lemma keeps_callStream v msg tid rid : keepsRegistry (callStream v msg tid rid).
Proof.
  destruct v; cbn [callStream]; try apply keeps_throw.
  - intros env st.
    apply (keeps_bind (recordCall _) (fun _ => outcomeToStream _));
      [by intros ? ? | intros _; apply keeps_outcomeToStream].
  - intros env st. apply keeps_outcomeToStream.
Qed.

Lemma keeps_consumeStream tag onChunk chunks fin acc :
  (forall f, onChunk = Some f -> forall c, keepsRegistry (f c)) ->
  keepsRegistry (consumeStream tag onChunk chunks fin acc).
Proof.
  intros Hf. revert acc. induction chunks as [|chunk rest IH]; intros acc.
  - cbn. destruct fin; [apply keeps_ret|apply keeps_throw].
  - cbn [consumeStream].
    apply keeps_bind; [apply keeps_consoleLog|intros _].
    apply keeps_bind; [|intros _; apply IH].
    destruct onChunk as [f|]; [by apply Hf|apply keeps_ret].
Qed.

Lemma keeps_simulateConversation v msg threadId resourceId :
  keepsRegistry (simulateConversation v msg threadId resourceId).
Proof.
  unfold simulateConversation.
  apply keeps_bind; [apply keeps_shownName|intros shown].
  apply keeps_bind; [apply keeps_consoleLog|intros _].
  apply keeps_tryCatch.
  - apply keeps_bind; [apply keeps_idOr|intros tid].
    apply keeps_bind; [apply keeps_idOr|intros rid].
    apply keeps_bind; [apply keeps_callStream|intros result].
    apply keeps_bind; [apply keeps_consoleLog|intros _].
    apply keeps_bind; [apply keeps_consoleLog|intros _].
    apply keeps_bind; [by apply keeps_consumeStream|intros full].
    apply keeps_bind; [apply keeps_consoleLog|intros _]. apply keeps_ret.
  - intros e. apply keeps_bind; [apply keeps_consoleError|intros _]. apply keeps_ret.
Qed.

Lemma keeps_streamConversation v msg tid rid onChunk :
  (forall f, onChunk = Some f -> forall c, keepsRegistry (f c)) ->
  keepsRegistry (streamConversation v msg tid rid onChunk).
Proof.
  intros Hf. unfold streamConversation.
  apply keeps_bind; [apply keeps_shownName|intros shown].
  apply keeps_bind; [apply keeps_consoleLog|intros _].
  apply keeps_tryCatch.
  - apply keeps_bind; [apply keeps_callStream|intros result].
    apply keeps_bind; [apply keeps_consoleLog|intros _].
    apply keeps_bind; [apply keeps_consoleLog|intros _].
    apply keeps_bind; [by apply keeps_consumeStream|intros full].
    apply keeps_bind; [apply keeps_consoleLog|intros _]. apply keeps_ret.
  - intros e. apply keeps_bind; [apply keeps_consoleError|intros _]. apply keeps_ret.
Qed.

Lemma keeps_next e : keepsRegistry (next e).
Proof.
  unfold next. apply keeps_bind; [apply keeps_consoleError|intros _]. apply keeps_ret.
Qed.

Lemma keeps_interactAgentHandler agentId reqBody :
  keepsRegistry (interactAgentHandler agentId reqBody).
Proof.
  unfold interactAgentHandler. apply keeps_tryCatch; [|apply keeps_next].
  destruct reqBody as [b|]; [|apply keeps_throw].
  destruct (message b) as [[|c r]|]; try apply keeps_ret.
  apply keeps_bind; [by intros ? ?|intros agent].
  apply keeps_bind; [destruct agent; by intros ? ?|intros found].
  destruct found; cbn [negb]; [|apply keeps_ret].
  apply keeps_tryCatch.
  - apply keeps_bind; [apply keeps_idOr|intros tid].
    apply keeps_bind; [apply keeps_idOr|intros rid].
    apply keeps_bind; [apply keeps_simulateConversation|intros response].
    apply keeps_bind; [apply keeps_idOr|intros tid'].
    apply keeps_bind; [apply keeps_idOr|intros rid']. apply keeps_ret.
  - intros e. apply keeps_bind; [apply keeps_consoleError|intros _]. apply keeps_ret.
Qed.

End KeepsRegistry.

(** X8.  Only the creation of an agent changes the registry.  A converse
    request leaves it as it was whatever the identity, the body and the
    behaviour of the collaborator, and so do the health check and a
    create request without a configuration; served by the process, each
    of these requests is answered and the registry of the listening
    process is the one it had. *)
Theorem only_creation_changes_registry :
  (forall agentId reqBody, keepsRegistry (interactAgentHandler agentId reqBody))
  /\ keepsRegistry healthCheckHandler
  /\ keepsRegistry (createAgentHandler None)
  /\ (forall env st req,
        match req with PostCreateAgent (Some _) => False | _ => True end ->
        exists resp st',
          serve env (Listening st) req = (Listening st', Some resp)
          /\ agentInstances st' = agentInstances st).
Proof.
  assert (Hhealth : keepsRegistry healthCheckHandler) by (by intros ? ?).
  assert (Hnone : keepsRegistry (createAgentHandler None)) by (by intros ? ?).
  split; [apply keeps_interactAgentHandler|]. split; [done|]. split; [done|].
  intros env st req Hreq.
  assert (Hroute : keepsRegistry (route req)).
  { destruct req as [[config|]|agentId b|]; cbn [route]; [done|..].
    - apply keeps_tryCatch; [done|apply keeps_next].
    - apply keeps_interactAgentHandler.
    - apply keeps_tryCatch; [done|apply keeps_next]. }
  destruct (route_ok req env st) as (resp & st' & E).
  specialize (Hroute env st). rewrite E in Hroute.
  exists resp, st'. cbn [serve]. by rewrite E.
Qed.

(** X9.  On a registry whose prototype is intact, a converse request with
    a message, against an identity that is neither registered nor a key
    of [Object.prototype], is answered 404 with the identity in the
    text, and the state is left untouched: no entry is created, the
    collaborator is not called. *)
Theorem unknown_agent_not_found agentId b c r env st :
  message b = Some (String c r) ->
  proto (agentInstances st) = None ->
  own (agentInstances st) !! agentId = None ->
  agentId <> "__proto__" ->
  agentId ∉ objectPrototypeKeys ->
  interactAgentHandler agentId (Some b) env st
  = (Ok {| statusCode := 404;
           body := ErrorBody ("Agent with ID " +:+ agentId +:+ " not found") None |},
     st).
Proof.
  intros Hmsg Hproto Hown Hk Hkeys.
  apply (interact_unknown agentId b c r env st Hmsg).
  by apply getProperty_undefined.
Qed.

(** ** The streaming helper and its callback *)

Lemma consumeStream_neverThrows tag f chunks acc env st :
  neverThrows f ->
  fst (consumeStream tag (Some f) chunks Completed acc env st)
  = Ok (acc +:+ Spec.joinStrings chunks).
Proof.
  intros Hf. revert acc st. induction chunks as [|chunk rest IH]; intros acc st.
  - cbn. by rewrite append_nil_r.
  - cbn [consumeStream]. run.
    match goal with |- context [f chunk env ?s] =>
      specialize (Hf chunk env s) as Hc; destruct (f chunk env s) as [[[]|e] st1]
    end; [|done].
    rewrite IH. cbn [Spec.joinStrings foldr]. by rewrite append_assoc.
Qed.

(** X10.  When the stream completes and the callback does not throw, the
    streaming helper returns the concatenation of the fragments in the
    order of arrival, whatever else the callback does. *)
Theorem streamConversation_returns_all a msg tid rid f chunks env st :
  neverThrows f ->
  stream env (length (calls st))
    {| inv_agent := a; inv_message := msg;
       inv_threadId := tid; inv_resourceId := rid |}
  = Streaming chunks Completed ->
  fst (streamConversation (VAgent a) msg tid rid (Some f) env st)
  = Ok (Spec.joinStrings chunks).
Proof.
  intros Hf Hout. unfold streamConversation. cbn [shownName callStream]. run.
  rewrite Hout. run. cbn beta iota zeta. run.
  match goal with |- context [consumeStream ?t (Some f) ?c Completed ?acc env ?s] =>
    pose proof (consumeStream_neverThrows t f c acc env s Hf) as Hrun;
    destruct (consumeStream t (Some f) c Completed acc env s) as [[text|e] st1]
  end; cbn [fst] in Hrun; by simplify_eq.
Qed.

(** X11.  A callback that throws makes the streaming helper return the
    apology although the stream itself is sound: when the callback throws
    [e] on the first fragment, [e] is caught with the failures of the
    collaborator, and the last line of the console is the error line of
    the helper carrying [e]; the fragments that follow are not read. *)
Theorem throwing_callback_degrades a msg tid rid f chunk rest fin e env st :
  throwsOn f chunk e ->
  stream env (length (calls st))
    {| inv_agent := a; inv_message := msg;
       inv_threadId := tid; inv_resourceId := rid |}
  = Streaming (chunk :: rest) fin ->
  exists st',
    streamConversation (VAgent a) msg tid rid (Some f) env st = (Ok apology, st')
    /\ last (console st')
       = Some (ConsoleError "Error in streamConversation:" (Some (ShownExn e))).
Proof.
  intros Hf Hout. unfold streamConversation. cbn [shownName callStream]. run.
  rewrite Hout. run. cbn beta iota zeta. cbn [consumeStream]. run.
  match goal with |- context [f chunk env ?s] =>
    destruct (Hf env s) as (st1 & E)
  end.
  rewrite E. eexists. split; [reflexivity|]. cbn [console]. apply last_snoc.
Qed.

Lemma consumeStream_silent tag f chunks fin acc env st :
  silent f ->
  consumeStream tag (Some f) chunks fin acc env st
  = consumeStream tag None chunks fin acc env st.
Proof.
  intros Hf. revert acc st. induction chunks as [|chunk rest IH]; intros acc st;
    [done|].
  cbn [consumeStream]. run. by rewrite Hf, IH.
Qed.

(** The streaming helper on an agent, with no callback or with one the
    state does not see. *)
Lemma streamConversation_agent a msg tid rid onChunk env st :
  (forall f, onChunk = Some f -> silent f) ->
  exists st' more,
    streamConversation (VAgent a) msg tid rid onChunk env st
    = (Ok match stream env (length (calls st))
                  {| inv_agent := a; inv_message := msg;
                     inv_threadId := tid; inv_resourceId := rid |} with
          | Streaming chunks Completed => Spec.joinStrings chunks
          | _ => apology
          end, st')
    /\ calls st' = calls st ++ [{| inv_agent := a; inv_message := msg;
                                    inv_threadId := tid; inv_resourceId := rid |}]
    /\ ticks st' = ticks st
    /\ agentInstances st' = agentInstances st
    /\ console st' = console st ++ more.
Proof.
  intros Hf. unfold streamConversation. cbn [shownName callStream]. run.
  assert (Hplain : forall tag chunks fin acc s,
             consumeStream tag onChunk chunks fin acc env s
             = consumeStream tag None chunks fin acc env s).
  { destruct onChunk as [f|]; [|done]. intros. by apply consumeStream_silent, Hf. }
  destruct (stream env _ _) as [e|chunks [|e]];
    run; cbn beta iota zeta; run;
    rewrite ?Hplain, ?consumeStream_plain;
    cbn [fst snd ticks calls console agentInstances];
    eexists _, _; (split; [reflexivity|]);
    cbn [ticks calls console agentInstances];
    repeat split; rewrite <- ?app_assoc; reflexivity.
Qed.

(** X12.  With both identifiers given and no callback, the two helpers
    return the same text and hand the same values to the collaborator,
    in one call each. *)
Theorem helpers_agree a msg tid rid env st :
  tid <> "" -> rid <> "" ->
  fst (simulateConversation (VAgent a) msg (Some tid) (Some rid) env st)
  = fst (streamConversation (VAgent a) msg tid rid None env st)
  /\ calls (snd (simulateConversation (VAgent a) msg (Some tid) (Some rid) env st))
     = calls st ++ [{| inv_agent := a; inv_message := msg;
                       inv_threadId := tid; inv_resourceId := rid |}]
  /\ calls (snd (streamConversation (VAgent a) msg tid rid None env st))
     = calls st ++ [{| inv_agent := a; inv_message := msg;
                       inv_threadId := tid; inv_resourceId := rid |}].
Proof.
  intros Htid Hrid.
  destruct tid as [|ct rt]; [done|]. destruct rid as [|cr rr]; [done|].
  destruct (simulateConversation_agent a msg (Some (String ct rt))
              (Some (String cr rr)) env st)
    as (tid' & rid' & st1 & E1 & Hcalls1 & _ & _ & Ht & Hr & _).
  rewrite (Ht _ _ eq_refl), (Hr _ _ eq_refl) in *. cbn zeta in E1.
  destruct (streamConversation_agent a msg (String ct rt) (String cr rr) None env st)
    as (st2 & more & E2 & Hcalls2 & _); [done|].
  rewrite E1, E2. cbn [fst snd]. by rewrite Hcalls1, Hcalls2.
Qed.

(** ** The command-line demo *)

Lemma bind_consoleLog {A} text arg (k : unit -> M A) env st :
  bind (consoleLog text arg) k env st = k tt env (logged (ConsoleLog text arg) st).
Proof. reflexivity. Qed.

Lemma bind_dateNow {A} (k : Z -> M A) env st :
  bind dateNow k env st = k (clock env (ticks st)) env (advance 1 st).
Proof. reflexivity. Qed.

Lemma bind_silent {A B} (use : A -> M unit) a (k : unit -> M B) env st :
  silent use -> bind (use a) k env st = k tt env st.
Proof. intros H. unfold bind. by rewrite H. Qed.

(** The set-up of [runDemo], step by step: down to the registration, and
    from there to the loop. *)
Ltac demo_steps :=
  repeat (rewrite ?bind_consoleLog, ?bind_dateNow; cbn beta zeta).

Ltac demo_enter :=
  unfold runDemo; rewrite bind_consoleLog; cbn beta iota zeta; unfold tryCatch;
  demo_steps; unfold registerAgents.

Ltac demo_setup Hm :=
  demo_enter; rewrite (bind_silent _ _ _ _ _ Hm); demo_steps.

(** The loop, with a terminal the state does not see: the messages before
    the first [exit] are sent one by one under the pair it was given. *)
Lemma chatLoop_run b agent displayName tid rid messages :
  silent (stdoutWrite b) ->
  forall n env st, exists st' more,
    chatLoop b agent displayName tid rid n messages env st
    = (Ok (if existsb isExit messages then DemoClosed else DemoWaiting), st')
    /\ calls st' = calls st ++ map (demoInvocation agent tid rid) (beforeExit messages)
    /\ ticks st' = ticks st
    /\ agentInstances st' = agentInstances st
    /\ console st' = console st ++ more.
Proof.
  intros Hb. induction messages as [|m rest IH]; intros n env st.
  - cbn. exists st, []. by rewrite !app_nil_r.
  - cbn [chatLoop existsb beforeExit]. destruct (isExit m) eqn:Hm; cbn [orb].
    + run. eexists _, _. split; [reflexivity|].
      cbn [calls ticks agentInstances console map]. by rewrite app_nil_r.
    + run.
      match goal with |- context [streamConversation _ _ _ _ ?cb env ?s] =>
        destruct (streamConversation_agent agent m tid rid cb env s)
          as (st1 & more1 & E1 & Hcalls1 & Hticks1 & Hreg1 & Hcon1);
          [by intros f [= <-]|]
      end.
      rewrite E1. cbn [ticks calls console agentInstances] in *.
      match goal with |- context [chatLoop _ _ _ _ _ ?k rest env ?s] =>
        destruct (IH k env s) as (st2 & more2 & E2 & Hcalls2 & Hticks2 & Hreg2 & Hcon2)
      end.
      rewrite E2. cbn [ticks calls console agentInstances] in *.
      exists st2. eexists. split; [reflexivity|].
      rewrite Hcalls2, Hcalls1, Hticks2, Hticks1, Hreg2, Hreg1, Hcon2, Hcon1.
      cbn [map]. rewrite <- !app_assoc. repeat split; reflexivity.
Qed.

(** X13.  The demo keeps one session for the whole conversation.  With the
    four set-up answers given, and a terminal and a framework constructor
    that the state does not see, the messages typed before the first [exit] are handed to the
    collaborator one by one, in order, each with the agent built from
    the answers and with the one pair of identifiers made from the two
    clock readings taken before the first message; a blank line is sent
    like any other message; nothing typed after [exit] is sent.  The
    clock is read twice in all, and the answer to the memory prompt has
    no part in the agent. *)
Theorem demo_keeps_one_session b nameAns instrAns persAns memAns messages env st :
  silent (stdoutWrite b) ->
  silent (newMastra b) ->
  let agent := createAgentTemplate (demoConfig b nameAns instrAns persAns memAns) in
  let tid := "thread_" +:+ JS.numberToString (clock env (ticks st)) in
  let rid := "user_" +:+ JS.numberToString (clock env (S (ticks st))) in
  let final :=
    snd (runDemo b (nameAns :: instrAns :: persAns :: memAns :: messages) env st) in
  calls final = calls st ++ map (demoInvocation agent tid rid) (beforeExit messages)
  /\ ticks final = S (S (ticks st))
  /\ agentInstances final = agentInstances st
  /\ (forall b' memAns',
        createAgentTemplate (demoConfig b' nameAns instrAns persAns memAns') = agent).
Proof.
  intros Hb Hm. cbn zeta. demo_setup Hm.
  match goal with |- context [chatLoop b ?a ?d ?t ?r ?k messages env ?s] =>
    destruct (chatLoop_run b a d t r messages Hb k env s)
      as (st' & more & E & Hcalls & Hticks & Hreg & _)
  end.
  rewrite E. cbn [snd logged advance ticks calls console agentInstances] in *.
  by rewrite Hcalls, Hticks, Hreg.
Qed.

(** Whatever the callback does, the streaming helper returns normally
    when it is given an agent. *)
Lemma streamConversation_returns a msg tid rid onChunk env st :
  exists text st',
    streamConversation (VAgent a) msg tid rid onChunk env st = (Ok text, st').
Proof.
  unfold streamConversation. cbn [shownName]. run.
  match goal with |- context [let (_, _) := ?m in _] =>
    destruct m as [[text|e] st1] end; eauto.
Qed.

Lemma chatLoop_ends b agent displayName tid rid messages :
  forall n env st, exists st',
    chatLoop b agent displayName tid rid n messages env st
    = (Ok (if existsb isExit messages then DemoClosed else DemoWaiting), st').
Proof.
  induction messages as [|m rest IH]; intros n env st.
  - cbn. eauto.
  - cbn [chatLoop existsb]. destruct (isExit m) eqn:Hm; cbn [orb].
    + run. eauto.
    + run.
      match goal with |- context [streamConversation ?v ?u ?t ?r ?cb env ?s] =>
        destruct (streamConversation_returns agent u t r cb env s) as (text & st1 & E1)
      end.
      rewrite E1.
      match goal with |- context [chatLoop _ _ _ _ _ ?k rest env ?s] =>
        destruct (IH k env s) as (st2 & E2)
      end.
      rewrite E2. eauto.
Qed.

(** X14.  The demo never lets an error escape, whatever the terminal, the
    framework, the collaborator and the input do.  With fewer than the
    four set-up answers it is left waiting.  With the four answers, a line
    [exit] in some letter case among those that follow ends it with the
    readline interface closed; and when the framework constructor stays
    silent, this is the only way it ends: without such a line it is left
    waiting for an answer. *)
Theorem demo_closes_on_exit b answers env st :
  exists ending,
    fst (runDemo b answers env st) = Ok ending
    /\ match answers with
       | _ :: _ :: _ :: _ :: messages =>
           (existsb isExit messages = true -> ending = DemoClosed)
           /\ (silent (newMastra b) ->
               ending = if existsb isExit messages then DemoClosed else DemoWaiting)
       | _ => ending = DemoWaiting
       end.
Proof.
  destruct answers as [|a1 [|a2 [|a3 [|a4 messages]]]];
    try (exists DemoWaiting; split; reflexivity).
  demo_enter. unfold bind at 1.
  match goal with |- context [newMastra b ?agents env ?s] =>
    destruct (newMastra b agents env s) as [[[]|e] st1] eqn:Enew
  end.
  - demo_steps.
    match goal with |- context [chatLoop b ?a ?d ?t ?r ?k messages env ?s] =>
      destruct (chatLoop_ends b a d t r messages k env s) as (st' & E)
    end.
    rewrite E. eexists. split; [reflexivity|]. split.
    + by intros ->.
    + done.
  - exists DemoClosed. split; [reflexivity|]. split; [done|].
    intros Hm. by rewrite Hm in Enew.
Qed.

(** X15.  The demo announces a model it does not use.  With the four
    set-up answers given, and a terminal and a framework constructor that
    the state does not see, the console shows the line [Model: gemini-1.5-flash-latest], while the
    agent handed to the collaborator with every message selects
    [qwen-2.5-32b]. *)
Theorem demo_announces_another_model b nameAns instrAns persAns memAns messages env st :
  silent (stdoutWrite b) ->
  silent (newMastra b) ->
  let final :=
    snd (runDemo b (nameAns :: instrAns :: persAns :: memAns :: messages) env st) in
  ConsoleLog "Model: gemini-1.5-flash-latest" None ∈ console final
  /\ forall inv, inv ∈ drop (length (calls st)) (calls final) ->
       agent_model (inv_agent inv) = "qwen-2.5-32b".
Proof.
  intros Hb Hm. cbn zeta. demo_setup Hm.
  match goal with |- context [chatLoop b ?a ?d ?t ?r ?k messages env ?s] =>
    destruct (chatLoop_run b a d t r messages Hb k env s)
      as (st' & more & E & Hcalls & _ & _ & Hcon)
  end.
  rewrite E. cbn [snd logged advance ticks calls console agentInstances] in *.
  split.
  - rewrite Hcon. apply elem_of_app. left.
    rewrite !elem_of_app, !list_elem_of_singleton. tauto.
  - rewrite Hcalls, drop_app_length.
    intros inv (m & -> & _)%list_elem_of_fmap. reflexivity.
Qed.

(** ** Entries stay *)

Lemma setProperty_intact env o k v :
  proto o = None ->
  exists o',
    setProperty env o k v = inr o'
    /\ forall j, is_Some (own o !! j) -> is_Some (own o' !! j).
Proof.
  intros Hproto. unfold setProperty. rewrite Hproto.
  assert (Hins : forall j, is_Some (own o !! j) -> is_Some (<[k := v]> (own o) !! j)).
  { intros j Hj. destruct (decide (k = j)) as [->|Hne].
    - rewrite lookup_insert_eq. eauto.
    - by rewrite lookup_insert_ne. }
  destruct (own o !! k); [eauto|]. case_bool_decide; eauto.
Qed.

(** X16.  There is no way to remove an agent.  On a registry whose
    prototype is intact, whatever request is served next, every identity
    that had an entry still has one afterwards (a creation may replace
    the agent behind it). *)
Theorem entries_are_never_removed req k env st :
  proto (agentInstances st) = None ->
  is_Some (own (agentInstances st) !! k) ->
  is_Some (own (agentInstances (snd (route req env st))) !! k).
Proof.
  intros Hproto Hk.
  assert (Hkeeps : keepsRegistry (route req) ->
                   is_Some (own (agentInstances (snd (route req env st))) !! k)).
  { intros H. by rewrite H. }
  destruct req as [[config|]|agentId b|]; cbn [route] in *.
  - clear Hkeeps. unfold createAgentHandler, deriveIdentity, storeAgent.
    destruct (idOr_run (option_map
                          (fun n => JS.replaceWhitespaceRuns (JS.toLowerCase n))
                          (name config)) "a" "gent_" env st)
      as (c & r & n & E & _).
    change (String "a" "gent_") with "agent_" in E. run. rewrite E.
    cbn [advance agentInstances].
    destruct (setProperty_intact env (agentInstances st) (String c r)
                (createAgentTemplate config) Hproto) as (o' & Eset & Hkept).
    rewrite Eset. unfold registerAgentInstances, next. run.
    destruct (mastra env o'); cbn [snd agentInstances]; by apply Hkept.
  - apply Hkeeps. apply keeps_tryCatch; [by intros ? ?|apply keeps_next].
  - apply Hkeeps. apply keeps_interactAgentHandler.
  - apply Hkeeps. apply keeps_tryCatch; [by intros ? ?|apply keeps_next].
Qed.

(** ** Instances *)

Lemma nameless_creations_kept_witness :
  let env := scriptedEnv (tickingClock 1700000000000) greeting in
  let st := initialState "3000" in
  let run1 := createAgentHandler (Some emptyConfig) env st in
  let run2 := createAgentHandler (Some (named "")) env (snd run1) in
  JS.truthy (name emptyConfig) = false
  /\ JS.truthy (name (named "")) = false
  /\ proto (agentInstances st) = None
  /\ clock env (ticks st) <> clock env (S (ticks st))
  /\ fst run1
     = Ok {| statusCode := 200;
             body := AgentCreated (agentView "agent_1700000000000" emptyConfig) |}
  /\ fst run2
     = Ok {| statusCode := 200;
             body := AgentCreated (agentView "agent_1700000000001" (named "")) |}
  /\ getProperty (agentInstances (snd run2)) "agent_1700000000000"
     = VAgent (createAgentTemplate emptyConfig)
  /\ getProperty (agentInstances (snd run2)) "agent_1700000000001"
     = VAgent (createAgentTemplate (named "")).
Proof.
  intros env st run1 run2.
  assert (H1 : JS.truthy (name emptyConfig) = false) by reflexivity.
  assert (H2 : JS.truthy (name (named "")) = false) by reflexivity.
  assert (H3 : proto (agentInstances st) = None) by reflexivity.
  assert (H4 : clock env (ticks st) <> clock env (S (ticks st)))
    by (vm_compute; discriminate).
  pose proof (nameless_creations_kept emptyConfig (named "") env st H1 H2 H3 H4)
    as (Hans1 & Hans2 & _ & Hfirst & Hsecond).
  exact (conj H1 (conj H2 (conj H3 (conj H4
           (conj (Hans1 eq_refl) (conj (Hans2 eq_refl) (conj Hfirst Hsecond))))))).
Defined.

Lemma nameless_creations_collide_witness :
  let env := scriptedEnv (clockAround 1700000000000) greeting in
  let st := initialState "3000" in
  let run1 := createAgentHandler (Some emptyConfig) env st in
  let run2 := createAgentHandler (Some (named "")) env (snd run1) in
  JS.truthy (name emptyConfig) = false
  /\ JS.truthy (name (named "")) = false
  /\ proto (agentInstances st) = None
  /\ clock env (ticks st) = clock env (S (ticks st))
  /\ fst run1
     = Ok {| statusCode := 200;
             body := AgentCreated (agentView "agent_1700000000000" emptyConfig) |}
  /\ fst run2
     = Ok {| statusCode := 200;
             body := AgentCreated (agentView "agent_1700000000000" (named "")) |}
  /\ getProperty (agentInstances (snd run2)) "agent_1700000000000"
     = VAgent (createAgentTemplate (named ""))
  /\ size (own (agentInstances (snd run2))) = size (own (agentInstances (snd run1))).
Proof.
  intros env st run1 run2.
  assert (H1 : JS.truthy (name emptyConfig) = false) by reflexivity.
  assert (H2 : JS.truthy (name (named "")) = false) by reflexivity.
  assert (H3 : proto (agentInstances st) = None) by reflexivity.
  assert (H4 : clock env (ticks st) = clock env (S (ticks st))) by reflexivity.
  pose proof (nameless_creations_collide emptyConfig (named "") env st H1 H2 H3 H4)
    as (Hans1 & Hans2 & _ & Hget & Hsize).
  exact (conj H1 (conj H2 (conj H3 (conj H4
           (conj (Hans1 eq_refl) (conj (Hans2 eq_refl) (conj Hget Hsize))))))).
Defined.

Lemma colliding_names_share_entry_witness :
  let env := scriptedEnv (clockAround 1700000000000) greeting in
  let st := initialState "3000" in
  let config1 := named "Friendly Bot" in
  let config2 := instructed "FRIENDLY   bot" "You are terse." in
  let run1 := createAgentHandler (Some config1) env st in
  let run2 := createAgentHandler (Some config2) env (snd run1) in
  "Friendly Bot" <> "FRIENDLY   bot"
  /\ JS.replaceWhitespaceRuns (JS.toLowerCase "Friendly Bot")
     = JS.replaceWhitespaceRuns (JS.toLowerCase "FRIENDLY   bot")
  /\ JS.replaceWhitespaceRuns (JS.toLowerCase "Friendly Bot") <> "__proto__"
  /\ proto (agentInstances st) = None
  /\ fst run1
     = Ok {| statusCode := 200;
             body := AgentCreated (agentView "friendly_bot" config1) |}
  /\ fst run2
     = Ok {| statusCode := 200;
             body := AgentCreated (agentView "friendly_bot" config2) |}
  /\ getProperty (agentInstances (snd run2)) "friendly_bot"
     = VAgent (createAgentTemplate config2)
  /\ size (own (agentInstances (snd run2))) = size (own (agentInstances (snd run1))).
Proof.
  intros env st config1 config2 run1 run2.
  assert (H0 : "Friendly Bot" <> "FRIENDLY   bot") by discriminate.
  assert (H1 : JS.replaceWhitespaceRuns (JS.toLowerCase "Friendly Bot")
               = JS.replaceWhitespaceRuns (JS.toLowerCase "FRIENDLY   bot"))
    by reflexivity.
  assert (H2 : JS.replaceWhitespaceRuns (JS.toLowerCase "Friendly Bot") <> "__proto__")
    by (vm_compute; discriminate).
  assert (H3 : proto (agentInstances st) = None) by reflexivity.
  pose proof (colliding_names_share_entry config1 config2 "Friendly Bot"
                "FRIENDLY   bot" env st eq_refl ltac:(discriminate) eq_refl
                ltac:(discriminate) H1 H2 H3)
    as (Hans1 & Hans2 & _ & Hget & Hsize).
  exact (conj H0 (conj H1 (conj H2 (conj H3
           (conj (Hans1 eq_refl) (conj (Hans2 eq_refl) (conj Hget Hsize))))))).
Defined.

Lemma whitespace_instructions_vanish_witness :
  instructions (instructed "Bot" "  ") = Some "  "
  /\ "  " <> ""
  /\ allUnits JS.isWhiteSpace "  " = true
  /\ agent_instructions (createAgentTemplate (instructed "Bot" "  "))
     = "Your name is " +:+ JS.orElse (name (instructed "Bot" "  ")) "Base Agent"
       +:+ "." +:+ JS.LF +:+ "Please respond in a "
       +:+ JS.orElse (personality (instructed "Bot" "  ")) "neutral" +:+ " tone.".
Proof.
  assert (H1 : instructions (instructed "Bot" "  ") = Some "  ") by reflexivity.
  assert (H2 : "  " <> "") by discriminate.
  assert (H3 : allUnits JS.isWhiteSpace "  " = true) by reflexivity.
  exact (conj H1 (conj H2 (conj H3
           (whitespace_instructions_vanish (instructed "Bot" "  ") "  " H1 H2 H3)))).
Defined.

Lemma unknown_agent_not_found_witness :
  let env := scriptedEnv (clockAround 1700000000000) greeting in
  message hello = Some "Hello"
  /\ proto (agentInstances friendlyState) = None
  /\ own (agentInstances friendlyState) !! "nonexistent" = None
  /\ "nonexistent" <> "__proto__"
  /\ ("nonexistent" ∉ objectPrototypeKeys)
  /\ interactAgentHandler "nonexistent" (Some hello) env friendlyState
     = (Ok {| statusCode := 404;
              body := ErrorBody ("Agent with ID " +:+ "nonexistent" +:+ " not found")
                        None |},
        friendlyState).
Proof.
  intros env.
  assert (H1 : message hello = Some "Hello") by reflexivity.
  assert (H2 : proto (agentInstances friendlyState) = None) by reflexivity.
  assert (H3 : own (agentInstances friendlyState) !! "nonexistent" = None)
    by (vm_compute; reflexivity).
  assert (H4 : "nonexistent" <> "__proto__") by discriminate.
  assert (H5 : "nonexistent" ∉ objectPrototypeKeys)
    by (apply (bool_decide_eq_false_1 _); vm_compute; reflexivity).
  exact (conj H1 (conj H2 (conj H3 (conj H4 (conj H5
           (unknown_agent_not_found "nonexistent" hello "H" "ello" env friendlyState
              H1 H2 H3 H4 H5)))))).
Defined.

Lemma streamConversation_returns_all_witness :
  let env := scriptedEnv (clockAround 1700000000000) greeting in
  let a := createAgentTemplate friendlyConfig in
  neverThrows echoChunk
  /\ stream env (length (calls friendlyState))
       {| inv_agent := a; inv_message := "Hello";
          inv_threadId := "t1"; inv_resourceId := "u1" |}
     = Streaming ["Hi"; " there"] Completed
  /\ fst (streamConversation (VAgent a) "Hello" "t1" "u1" (Some echoChunk)
            env friendlyState)
     = Ok (Spec.joinStrings ["Hi"; " there"]).
Proof.
  intros env a.
  assert (H1 : neverThrows echoChunk) by (intros s e st; reflexivity).
  assert (H2 : stream env (length (calls friendlyState))
                 {| inv_agent := a; inv_message := "Hello";
                    inv_threadId := "t1"; inv_resourceId := "u1" |}
               = Streaming ["Hi"; " there"] Completed) by reflexivity.
  exact (conj H1 (conj H2
           (streamConversation_returns_all a "Hello" "t1" "u1" echoChunk
              ["Hi"; " there"] env friendlyState H1 H2))).
Defined.

Lemma throwing_callback_degrades_witness :
  let env := scriptedEnv (clockAround 1700000000000) greeting in
  let a := createAgentTemplate friendlyConfig in
  throwsOn brokenCallback "Hi" (PlainError "render failed")
  /\ stream env (length (calls friendlyState))
       {| inv_agent := a; inv_message := "Hello";
          inv_threadId := "t1"; inv_resourceId := "u1" |}
     = Streaming ["Hi"; " there"] Completed
  /\ exists st',
       streamConversation (VAgent a) "Hello" "t1" "u1" (Some brokenCallback)
         env friendlyState
       = (Ok apology, st')
       /\ last (console st')
          = Some (ConsoleError "Error in streamConversation:"
                    (Some (ShownExn (PlainError "render failed")))).
Proof.
  intros env a.
  assert (H1 : throwsOn brokenCallback "Hi" (PlainError "render failed"))
    by (intros e st; eexists; reflexivity).
  assert (H2 : stream env (length (calls friendlyState))
                 {| inv_agent := a; inv_message := "Hello";
                    inv_threadId := "t1"; inv_resourceId := "u1" |}
               = Streaming ["Hi"; " there"] Completed) by reflexivity.
  exact (conj H1 (conj H2
           (throwing_callback_degrades a "Hello" "t1" "u1" brokenCallback
              "Hi" [" there"] Completed (PlainError "render failed")
              env friendlyState H1 H2))).
Defined.

Lemma helpers_agree_witness :
  let env := scriptedEnv (clockAround 1700000000000) cutOff in
  let a := createAgentTemplate friendlyConfig in
  "t1" <> "" /\ "u1" <> ""
  /\ fst (simulateConversation (VAgent a) "Hello" (Some "t1") (Some "u1")
            env friendlyState)
     = fst (streamConversation (VAgent a) "Hello" "t1" "u1" None env friendlyState).
Proof.
  intros env a.
  assert (H1 : "t1" <> "") by discriminate.
  assert (H2 : "u1" <> "") by discriminate.
  exact (conj H1 (conj H2
           (proj1 (helpers_agree a "Hello" "t1" "u1" env friendlyState H1 H2)))).
Defined.

Lemma demo_keeps_one_session_witness :
  let env := scriptedEnv (tickingClock 1700000000000) greeting in
  let st := initialState "3000" in
  let messages := ["Hello"; ""; "EXIT"; "too late"] in
  let agent := createAgentTemplate (demoConfig quietBuiltins "Friendly Bot" "" "" "5") in
  let tid := "thread_" +:+ JS.numberToString (clock env (ticks st)) in
  let rid := "user_" +:+ JS.numberToString (clock env (S (ticks st))) in
  silent (stdoutWrite quietBuiltins)
  /\ silent (newMastra quietBuiltins)
  /\ beforeExit messages = ["Hello"; ""]
  /\ calls (snd (runDemo quietBuiltins ("Friendly Bot" :: "" :: "" :: "5" :: messages)
                   env st))
     = calls st ++ map (demoInvocation agent tid rid) (beforeExit messages).
Proof.
  intros env st messages agent tid rid.
  assert (H1 : silent (stdoutWrite quietBuiltins)) by (intros s e s0; reflexivity).
  assert (Hm : silent (newMastra quietBuiltins)) by (intros s e s0; reflexivity).
  assert (H2 : beforeExit messages = ["Hello"; ""]) by reflexivity.
  exact (conj H1 (conj Hm (conj H2
           (proj1 (demo_keeps_one_session quietBuiltins "Friendly Bot" "" "" "5"
                     messages env st H1 Hm))))).
Defined.

Lemma demo_announces_another_model_witness :
  let env := scriptedEnv (tickingClock 1700000000000) greeting in
  let st := initialState "3000" in
  silent (stdoutWrite quietBuiltins)
  /\ silent (newMastra quietBuiltins)
  /\ ConsoleLog "Model: gemini-1.5-flash-latest" None
     ∈ console (snd (runDemo quietBuiltins ["Friendly Bot"; ""; ""; "5"; "Hello"; "exit"]
                       env st)).
Proof.
  intros env st.
  assert (H1 : silent (stdoutWrite quietBuiltins)) by (intros s e s0; reflexivity).
  assert (Hm : silent (newMastra quietBuiltins)) by (intros s e s0; reflexivity).
  exact (conj H1 (conj Hm
           (proj1 (demo_announces_another_model quietBuiltins "Friendly Bot" "" "" "5"
                     ["Hello"; "exit"] env st H1 Hm)))).
Defined.

Lemma entries_are_never_removed_witness :
  let env := scriptedEnv (clockAround 1700000000000) greeting in
  proto (agentInstances friendlyState) = None
  /\ is_Some (own (agentInstances friendlyState) !! "friendlybot")
  /\ is_Some (own (agentInstances
                     (snd (route (PostCreateAgent (Some (named "Other Bot"))) env
                             friendlyState)))
              !! "friendlybot").
Proof.
  intros env.
  assert (H1 : proto (agentInstances friendlyState) = None) by reflexivity.
  assert (H2 : is_Some (own (agentInstances friendlyState) !! "friendlybot"))
    by (vm_compute; eauto).
  exact (conj H1 (conj H2
           (entries_are_never_removed (PostCreateAgent (Some (named "Other Bot")))
              "friendlybot" env friendlyState H1 H2))).
Defined.

Lemma supplied_session_echoed_witness :
  let env := scriptedEnv (clockAround 1700000000000) greeting in
  message (helloIn "t1" "u1") = Some "Hello"
  /\ threadId (helloIn "t1" "u1") = Some "t1"
  /\ resourceId (helloIn "t1" "u1") = Some "u1"
  /\ getProperty (agentInstances friendlyState) "friendlybot"
     = VAgent (createAgentTemplate friendlyConfig)
  /\ exists text st',
       interactAgentHandler "friendlybot" (Some (helloIn "t1" "u1")) env friendlyState
       = (Ok {| statusCode := 200; body := Reply text "t1" "u1" |}, st')
       /\ calls st'
          = calls friendlyState
            ++ [{| inv_agent := createAgentTemplate friendlyConfig;
                   inv_message := "Hello";
                   inv_threadId := "t1"; inv_resourceId := "u1" |}].
Proof.
  intros env.
  assert (H4 : getProperty (agentInstances friendlyState) "friendlybot"
               = VAgent (createAgentTemplate friendlyConfig))
    by (vm_compute; reflexivity).
  exact (conj eq_refl (conj eq_refl (conj eq_refl (conj H4
           (supplied_session_echoed "friendlybot" (helloIn "t1" "u1") "H" "ello"
              (createAgentTemplate friendlyConfig) "t" "1" "u" "1" env friendlyState
              eq_refl eq_refl eq_refl H4))))).
Defined.

Lemma demo_closes_on_exit_witness :
  let env := scriptedEnv (tickingClock 1700000000000) greeting in
  let st := initialState "3000" in
  (exists ending,
     fst (runDemo quietBuiltins ["Friendly Bot"; ""; ""; "5"; "Hello"; "Exit"] env st)
     = Ok ending /\ ending = DemoClosed)
  /\ (exists ending,
        fst (runDemo refusingBuiltins ["Friendly Bot"; ""; ""; "5"; "Hello"] env st)
        = Ok ending).
Proof.
  intros env st. split.
  - destruct (demo_closes_on_exit quietBuiltins
                ["Friendly Bot"; ""; ""; "5"; "Hello"; "Exit"] env st)
      as (ending & E & Hexit & _).
    exists ending. split; [exact E|]. apply Hexit. reflexivity.
  - destruct (demo_closes_on_exit refusingBuiltins
                ["Friendly Bot"; ""; ""; "5"; "Hello"] env st)
      as (ending & E & _).
    exists ending. exact E.
Defined.

Lemma only_creation_changes_registry_witness :
  let env := scriptedEnv (clockAround 1700000000000) providerDown in
  let req := PostInteract "friendlybot" (Some hello) in
  exists resp st',
    serve env (Listening friendlyState) req = (Listening st', Some resp)
    /\ agentInstances st' = agentInstances friendlyState.
Proof.
  intros env req.
  exact (proj2 (proj2 (proj2 only_creation_changes_registry)) env friendlyState req I).
Defined.
